(** * Kokoro TTS demo: the generation orchestration layer

    A shallow embedding of the orchestration functions of
    [tts-with-logging.py] ([forward_gpu], [generate_first], [predict],
    [tokenize_first], [generate_all]) together with the module-level
    configuration they read ([CUDA_AVAILABLE], [CHAR_LIMIT], [models],
    [pipelines]).

    The external collaborators (the [kokoro] pipeline and model, the
    [gradio] notification calls) are opaque: a pipeline is a record of
    functions, a model is a function that may raise, and every interaction
    with them is recorded in an event log, so that what the orchestration
    code asks of them, and in which order, can be stated and proved.

    Calls to [logger] only write to the log file and never change the
    control flow; they are left out, and with them the [segment_count]
    counter of [generate_all], which is only ever logged. *)

From Stdlib Require Import ZArith NArith List Lia Bool Ascii String.
From stdpp Require Import base option list gmap.

Local Open Scope Z_scope.

(** ** Python values *)

(** A Python [str] is a sequence of Unicode code points; [len] counts
    code points, not bytes. *)
Definition pystr := list N.

(** A string literal of the source (ASCII only). *)
Definition py (s : string) : pystr := map N_of_ascii (list_ascii_of_string s).
Arguments py : simpl never.

Definition len {A} (l : list A) : Z := Z.of_nat (length l).

(** IEEE-754 single-precision samples, kept as bit patterns: the
    orchestration code moves audio around and never computes on it. *)
Definition float32 := N.

(** A tensor (or the [numpy] array made from it), as its flat data. *)
Definition tensor := list float32.
Definition ndarray := list float32.

(** [speed] is either the [int] default [1] or a [float] from the slider
    (as its binary64 bit pattern); it is only passed along. *)
Inductive number :=
| Int (z : Z)
| Float (bits : N).

(** Keys of the two dictionaries of the module. *)
Inductive key :=
| KeyBool (b : bool)
| KeyChar (c : N).

(** Exceptions.  [GrError] and [GrErrorOf] are both instances of
    [gr.exceptions.Error] ([gr.Error] is the same class): the first built
    from a message string, the second by [gr.Error(e)] from another
    exception. *)
Inductive exn :=
| GrError (message : pystr)
| GrErrorOf (cause : exn)
| KeyError (k : key)
| IndexError
| OtherError (cls : pystr) (message : pystr).

(** [isinstance(e, gr.exceptions.Error)] *)
Definition is_gr_error (e : exn) : bool :=
  match e with
  | GrError _ | GrErrorOf _ => true
  | _ => false
  end.

(** One hexadecimal digit, in lower case. *)
Definition hexdigit (n : N) : N :=
  (if n <? 10 then 48 + n else 87 + n)%N.

(** The last [width] hexadecimal digits of [c]. *)
Fixpoint hex (width : nat) (c : N) : pystr :=
  match width with
  | O => []
  | S w => hex w (c / 16)%N ++ [hexdigit (c mod 16)%N]
  end.

Definition in_range (lo hi c : N) : bool := ((lo <=? c) && (c <=? hi))%N.

(** [str.isprintable] on one code point: everything but the control,
    format, surrogate, private-use, separator and non-character code
    points (the ASCII space is printable).  Code points that the
    interpreter's version of Unicode leaves unassigned are not told
    apart from the assigned ones around them. *)
Definition isprintable (c : N) : bool :=
  if (c <? 128)%N then in_range 32 126 c
  else
    negb (in_range 128 160 c || (c =? 173)%N
          || in_range 1536 1541 c || (c =? 1564)%N || (c =? 1757)%N
          || (c =? 1807)%N || in_range 2192 2193 c || (c =? 2274)%N
          || (c =? 5760)%N || (c =? 6158)%N
          || in_range 8192 8207 c || in_range 8232 8239 c
          || in_range 8287 8292 c || in_range 8294 8303 c
          || (c =? 12288)%N
          || in_range 55296 63743 c
          || in_range 64976 65007 c
          || (c =? 65279)%N || in_range 65529 65531 c
          || (65534 <=? c mod 65536)%N
          || (c =? 69821)%N || (c =? 69837)%N
          || in_range 78896 78911 c
          || in_range 113824 113827 c || in_range 119155 119162 c
          || (c =? 917505)%N || in_range 917536 917631 c
          || (983040 <=? c)%N).

(** One character of [repr(s)], between the quotes [quote]. *)
Definition repr_char (quote c : N) : pystr :=
  (if (c =? quote) || (c =? 92) then [92; c]
   else if c =? 9 then [92; 116]
   else if c =? 10 then [92; 110]
   else if c =? 13 then [92; 114]
   else if (c <? 32) || (c =? 127) then 92 :: 120 :: hex 2 c
   else if c <? 127 then [c]
   else if isprintable c then [c]
   else if c <? 256 then 92 :: 120 :: hex 2 c
   else if c <? 65536 then 92 :: 117 :: hex 4 c
   else 92 :: 85 :: hex 8 c)%N.

(** [repr(s)] of a [str]: single quotes, unless the string holds a
    single quote and no double quote. *)
Definition repr_str (s : pystr) : pystr :=
  let quote :=
    if existsb (N.eqb 39) s && negb (existsb (N.eqb 34) s) then 34%N else 39%N in
  quote :: flat_map (repr_char quote) s ++ [quote].

(** [repr(k)] of a key. *)
Definition key_repr (k : key) : pystr :=
  match k with
  | KeyBool true => py "True"
  | KeyBool false => py "False"
  | KeyChar c => repr_str [c]
  end.

(** The message an [IndexError] of the model stands for; Python's text
    depends on the sequence that was indexed. *)
Definition index_message : pystr := py "index out of range".

(** [repr(e)]: the name of the class and the [repr] of its argument. *)
Fixpoint exn_repr (e : exn) : pystr :=
  match e with
  | GrError m => py "Error(" ++ repr_str m ++ py ")"
  | GrErrorOf e' => py "Error(" ++ exn_repr e' ++ py ")"
  | KeyError k => py "KeyError(" ++ key_repr k ++ py ")"
  | IndexError => py "IndexError(" ++ repr_str index_message ++ py ")"
  | OtherError cls m => cls ++ py "(" ++ repr_str m ++ py ")"
  end.

(** [str(e)].  A [gr.exceptions.Error] prints as the [repr] of its
    message (its [__str__] returns [repr(self.message)]), so
    [str(gr.Error('quota'))] is the seven characters ['quota'], quotes
    included, and [str(gr.Error(e))] is [repr(e)]; a [KeyError] prints
    as the [repr] of its key, the others as their message. *)
Definition exn_str (e : exn) : pystr :=
  match e with
  | GrError m => repr_str m
  | GrErrorOf e' => exn_repr e'
  | KeyError k => key_repr k
  | IndexError => index_message
  | OtherError _ m => m
  end.

Inductive outcome (A : Type) :=
| Ok (a : A)
| Raised (e : exn).
Arguments Ok {A} a.
Arguments Raised {A} e.

(** A Python generator that is pulled with [next]: it yields a value and
    goes on, stops, or raises.  The segmenter's sequence is finite. *)
Inductive generator (A : Type) :=
| StopIteration
| Raises (e : exn)
| Yields (a : A) (rest : generator A).
Arguments StopIteration {A}.
Arguments Raises {A} e.
Arguments Yields {A} a rest.

(** [l[i]] on a sequence, with Python's negative indices. *)
Definition getitem {A} (l : list A) (i : Z) : outcome A :=
  let n := len l in
  let j := if i <? 0 then i + n else i in
  if (0 <=? j) && (j <? n) then
    match l !! Z.to_nat j with
    | Some x => Ok x
    | None => Raised IndexError
    end
  else Raised IndexError.

(** [str.isspace] on one code point (CPython's [_PyUnicode_IsWhitespace]). *)
Definition isspace (c : N) : bool :=
  ((9 <=? c) && (c <=? 13) || (28 <=? c) && (c <=? 32)
   || (c =? 133) || (c =? 160) || (c =? 5760)
   || (8192 <=? c) && (c <=? 8202)
   || (c =? 8232) || (c =? 8233) || (c =? 8239) || (c =? 8287)
   || (c =? 12288))%N.

Fixpoint lstrip (s : pystr) : pystr :=
  match s with
  | c :: s' => if isspace c then lstrip s' else s
  | [] => []
  end.

Definition rstrip (s : pystr) : pystr := rev (lstrip (rev s)).

(** [s.strip()] *)
Definition strip (s : pystr) : pystr := rstrip (lstrip s).

(** [s[:n]] for a limit [n] that is not negative. *)
Definition slice_to (s : pystr) (n : N) : pystr := firstn (N.to_nat n) s.

(** [s.startswith(p)] *)
Fixpoint startswith (s p : pystr) : bool :=
  match p, s with
  | [], _ => true
  | _ :: _, [] => false
  | a :: p', b :: s' => (a =? b)%N && startswith s' p'
  end.

(** ** The collaborators *)

(** An audio chunk: [(sample_rate, samples)]. *)
Definition chunk : Type := Z * ndarray.

(** One item of the pipeline's sequence, as the [for _, ps, _] loops
    unpack it: graphemes, phonemes, audio. *)
Definition segment : Type := pystr * pystr * option tensor.

(** A voice pack: reference vectors, one per phoneme-sequence length. *)
Definition pack := list tensor.

(** [KModel]: calling the model runs [forward(ps, ref_s, speed)]. *)
Record KModel := {
  forward : pystr -> tensor -> number -> outcome tensor
}.

(** [KPipeline]: [load_voice(voice)] and [__call__(text, voice[, speed])];
    [None] for the speed stands for a call that leaves the argument out. *)
Record KPipeline := {
  load_voice : pystr -> outcome pack;
  call : pystr -> pystr -> option number -> generator segment
}.

(** What the orchestration code does to the outside world. *)
Inductive event :=
| EvLoadVoice (voice : pystr)
| EvPipeline (text voice : pystr) (speed : option number)
| EvSynth (gpu : bool) (ps : pystr) (ref_s : tensor) (speed : number)
| EvWarning (message : pystr)
| EvInfo (message : pystr)
| EvYield (c : chunk).

(** ** Computations: an event log and a result or an exception *)

Record M (A : Type) := Run { log : list event; out : outcome A }.
Arguments Run {A} log out.
Arguments log {A} m.
Arguments out {A} m.

Definition ret {A} (a : A) : M A := Run [] (Ok a).
Definition raise {A} (e : exn) : M A := Run [] (Raised e).
Definition lift {A} (r : outcome A) : M A := Run [] r.
Definition emit (ev : event) : M unit := Run [ev] (Ok tt).

Definition bind {A B} (m : M A) (f : A -> M B) : M B :=
  match out m with
  | Ok a => Run (log m ++ log (f a)) (out (f a))
  | Raised e => Run (log m) (Raised e)
  end.

#[global] Instance M_ret : MRet M := @ret.
#[global] Instance M_bind : MBind M := fun A B f m => bind m f.

(** [try: body except gr.exceptions.Error as e: handler] *)
Definition try_except_gr {A} (body : M A) (handler : exn -> M A) : M A :=
  match out body with
  | Raised e =>
      if is_gr_error e
      then Run (log body ++ log (handler e)) (out (handler e))
      else body
  | Ok _ => body
  end.

(** ** Module-level state *)

Record globals := {
  CUDA_AVAILABLE : bool;
  CHAR_LIMIT : option N;
  models : gmap bool KModel;
  pipelines : gmap N KPipeline
}.

(** [models[gpu]] *)
Definition models_getitem (G : globals) (gpu : bool) : M KModel :=
  match models G !! gpu with
  | Some m => ret m
  | None => raise (KeyError (KeyBool gpu))
  end.

(** [pipelines[c]] *)
Definition pipelines_getitem (G : globals) (c : N) : M KPipeline :=
  match pipelines G !! c with
  | Some p => ret p
  | None => raise (KeyError (KeyChar c))
  end.

(** The call [model(ps, ref_s, speed)] of the model stored under [gpu]. *)
Definition call_model (gpu : bool) (model : KModel)
    (ps : pystr) (ref_s : tensor) (speed : number) : M tensor :=
  Run [EvSynth gpu ps ref_s speed] (forward model ps ref_s speed).

(** [pipeline.load_voice(voice)] *)
Definition call_load_voice (pipeline : KPipeline) (voice : pystr) : M pack :=
  Run [EvLoadVoice voice] (load_voice pipeline voice).

(** [pipeline(text, voice, speed)]: builds the generator, which the
    [for] loop then pulls. *)
Definition call_pipeline (pipeline : KPipeline) (text voice : pystr)
    (speed : option number) : M (generator segment) :=
  Run [EvPipeline text voice speed] (Ok (call pipeline text voice speed)).

(** [audio.numpy()] *)
Definition numpy (t : tensor) : ndarray := t.

(** [torch.zeros(n)] *)
Definition torch_zeros (n : nat) : tensor := repeat 0%N n.

Definition gr_Warning (message : pystr) : M unit := emit (EvWarning message).
Definition gr_Info (message : pystr) : M unit := emit (EvInfo message).

(** ** The source functions

    Every argument is explicit: the defaults of the source
    ([voice='af_heart'], [speed=1], [use_gpu=CUDA_AVAILABLE]) only serve
    callers that leave an argument out. *)

Definition forward_gpu (G : globals) (ps : pystr) (ref_s : tensor)
    (speed : number) : M tensor :=
  model ← models_getitem G true;
  call_model true model ps ref_s speed.

Definition generate_first (G : globals) (text voice : pystr) (speed : number)
    (use_gpu : bool) : M (option chunk * pystr) :=
  let text :=
    match CHAR_LIMIT G with
    | None => text
    | Some limit => slice_to (strip text) limit
    end in
  c ← lift (getitem voice 0);
  pipeline ← pipelines_getitem G c;
  pack ← call_load_voice pipeline voice;
  let use_gpu := use_gpu && CUDA_AVAILABLE G in
  segments ← call_pipeline pipeline text voice (Some speed);
  match segments with
  | Yields (_, ps, _) _ =>
      ref_s ← lift (getitem pack (len ps - 1));
      audio ←
        try_except_gr
          (if use_gpu
           then forward_gpu G ps ref_s speed
           else model ← models_getitem G false;
                call_model false model ps ref_s speed)
          (fun e =>
             if use_gpu
             then
               gr_Warning (exn_str e);;
               gr_Info (py "Retrying with CPU. To avoid this error, change Hardware to CPU.");;
               model ← models_getitem G false;
               call_model false model ps ref_s speed
             else raise (GrErrorOf e));
      mret (Some (24000, numpy audio), ps)
  | Raises e => raise e
  | StopIteration => mret (None, [])
  end.

Definition predict (G : globals) (text voice : pystr) (speed : number)
    : M (option chunk) :=
  r ← generate_first G text voice speed false;
  mret (fst r).

Definition tokenize_first (G : globals) (text voice : pystr) : M pystr :=
  c ← lift (getitem voice 0);
  pipeline ← pipelines_getitem G c;
  segments ← call_pipeline pipeline text voice None;
  match segments with
  | Yields (_, ps, _) _ => mret ps
  | Raises e => raise e
  | StopIteration => mret []
  end.

(** The [for] loop of [generate_all], run until the generator is
    exhausted or raises; each [yield] is an [EvYield] event. *)
Fixpoint generate_all_loop (G : globals) (pack : pack) (speed : number)
    (use_gpu : bool) (first : bool) (segments : generator segment) : M unit :=
  match segments with
  | Yields (_, ps, _) rest =>
      ref_s ← lift (getitem pack (len ps - 1));
      audio ←
        try_except_gr
          (if use_gpu
           then forward_gpu G ps ref_s speed
           else model ← models_getitem G false;
                call_model false model ps ref_s speed)
          (fun e =>
             if use_gpu
             then
               gr_Warning (exn_str e);;
               gr_Info (py "Switching to CPU");;
               model ← models_getitem G false;
               call_model false model ps ref_s speed
             else raise (GrErrorOf e));
      emit (EvYield (24000, numpy audio));;
      first ←
        (if first
         then emit (EvYield (24000, numpy (torch_zeros 1)));; mret false
         else mret first);
      generate_all_loop G pack speed use_gpu first rest
  | Raises e => raise e
  | StopIteration => mret tt
  end.

Definition generate_all (G : globals) (text voice : pystr) (speed : number)
    (use_gpu : bool) : M unit :=
  let text :=
    match CHAR_LIMIT G with
    | None => text
    | Some limit => slice_to (strip text) limit
    end in
  c ← lift (getitem voice 0);
  pipeline ← pipelines_getitem G c;
  pack ← call_load_voice pipeline voice;
  let use_gpu := use_gpu && CUDA_AVAILABLE G in
  let first := true in
  segments ← call_pipeline pipeline text voice (Some speed);
  generate_all_loop G pack speed use_gpu first segments.

(** ** The module's own configuration (lines 27-48 of the source) *)

(** [not os.getenv('SPACE_ID', '').startswith('c:/kuku')] *)
Definition IS_DUPLICATE (SPACE_ID : option pystr) : bool :=
  negb (startswith (default [] SPACE_ID) (py "c:/kuku")).

(** The globals as the module builds them: the capability flag is the
    literal [False], [models] is a comprehension over [[False]], and
    [pipelines] one over the two characters of ['ab']. *)
Definition module_globals (SPACE_ID : option pystr) (kmodel : KModel)
    (pipeline_a pipeline_b : KPipeline) : globals :=
  {| CUDA_AVAILABLE := false;
     CHAR_LIMIT := if IS_DUPLICATE SPACE_ID then None else Some 500000%N;
     models := {[ false := kmodel ]};
     pipelines := <[ 97%N := pipeline_a ]> {[ 98%N := pipeline_b ]} |}.

(** ** Observations on a log *)

Definition yields (l : list event) : list chunk :=
  omap (fun ev => match ev with EvYield c => Some c | _ => None end) l.

Definition synth_calls (l : list event) : list (bool * pystr * tensor * number) :=
  omap (fun ev => match ev with
                  | EvSynth gpu ps ref_s speed => Some (gpu, ps, ref_s, speed)
                  | _ => None
                  end) l.

Definition pipeline_calls (l : list event) : list (pystr * pystr * option number) :=
  omap (fun ev => match ev with
                  | EvPipeline text voice speed => Some (text, voice, speed)
                  | _ => None
                  end) l.

Definition notifications (l : list event) : list event :=
  omap (fun ev => match ev with
                  | EvWarning _ | EvInfo _ => Some ev
                  | _ => None
                  end) l.

(** ** Finite generators *)

(** The generator that yields the items of [l] and then goes on as [g]. *)
Fixpoint gen_app {A} (l : list A) (g : generator A) : generator A :=
  match l with
  | [] => g
  | a :: l' => Yields a (gen_app l' g)
  end.

(** The generator that yields exactly the items of [l]. *)
Definition gen_of_list {A} (l : list A) : generator A := gen_app l StopIteration.

(** [a] is one of the items the generator yields. *)
Fixpoint gen_In {A} (a : A) (g : generator A) : Prop :=
  match g with
  | Yields b rest => a = b \/ gen_In a rest
  | _ => False
  end.

Definition phonemes (s : segment) : pystr := snd (fst s).

(** ** The text handed to the segmenter, the voice set-up *)

(** What [generate_first] and [generate_all] rebind [text] to. *)
Definition normalized (G : globals) (text : pystr) : pystr :=
  match CHAR_LIMIT G with
  | None => text
  | Some limit => slice_to (strip text) limit
  end.

(** The voice names a pipeline of the table, and that pipeline loads the
    voice's pack: the three steps that precede the segmenter loop. *)
Definition resolves (G : globals) (voice : pystr) (p : KPipeline) (pk : pack) : Prop :=
  exists c, getitem voice 0 = Ok c /\ pipelines G !! c = Some p
            /\ load_voice p voice = Ok pk.

(** ** The dispatch policy as a function of results *)

(** Running the backend stored under [gpu]. *)
Definition backend (G : globals) (gpu : bool) (ps : pystr) (ref_s : tensor)
    (speed : number) : outcome tensor :=
  match models G !! gpu with
  | Some m => forward m ps ref_s speed
  | None => Raised (KeyError (KeyBool gpu))
  end.

(** Retry once with downgrade: the accelerated result unless it is a
    generation error, in which case the standard result; without
    acceleration the standard result, a generation error being
    re-raised as [gr.Error(e)]. *)
Definition synth_outcome (G : globals) (use_gpu : bool) (ps : pystr)
    (ref_s : tensor) (speed : number) : outcome tensor :=
  if use_gpu then
    match backend G true ps ref_s speed with
    | Raised e =>
        if is_gr_error e then backend G false ps ref_s speed else Raised e
    | Ok a => Ok a
    end
  else
    match backend G false ps ref_s speed with
    | Raised e => Raised (if is_gr_error e then GrErrorOf e else e)
    | Ok a => Ok a
    end.

(** The outcome for one segment: the reference vector is looked up,
    then synthesis is dispatched. *)
Definition segment_outcome (G : globals) (pk : pack) (speed : number)
    (use_gpu : bool) (seg : segment) : outcome tensor :=
  match getitem pk (len (phonemes seg) - 1) with
  | Ok ref_s => synth_outcome G use_gpu (phonemes seg) ref_s speed
  | Raised e => Raised e
  end.

(** The chunks of a stream whose segments gave [audios]: the silence
    marker comes right after the first one. *)
Definition stream (audios : list tensor) : list chunk :=
  match audios with
  | [] => []
  | a :: rest => (24000, a) :: (24000, [0%N]) :: map (fun b => (24000, b)) rest
  end.

(** The [try]/[except] block shared, up to the text of the
    notification, by the two loops. *)
Definition synthesize (G : globals) (info : pystr) (use_gpu : bool)
    (ps : pystr) (ref_s : tensor) (speed : number) : M tensor :=
  try_except_gr
    (if use_gpu
     then forward_gpu G ps ref_s speed
     else model ← models_getitem G false;
          call_model false model ps ref_s speed)
    (fun e =>
       if use_gpu
       then
         gr_Warning (exn_str e);;
         gr_Info info;;
         model ← models_getitem G false;
         call_model false model ps ref_s speed
       else raise (GrErrorOf e)).

Definition info_first : pystr :=
  py "Retrying with CPU. To avoid this error, change Hardware to CPU.".
Definition info_all : pystr := py "Switching to CPU".

(** ** Vocabulary of the statements *)

(** Whatever happens, the block only talks to the backends about its own
    segment, and to the user. *)
Definition block_event (ps : pystr) (ref_s : tensor) (speed : number)
    (use_gpu : bool) (ev : event) : Prop :=
  match ev with
  | EvSynth gpu ps' ref' speed' =>
      ps' = ps /\ ref' = ref_s /\ speed' = speed /\ (gpu = true -> use_gpu = true)
  | EvWarning _ | EvInfo _ => use_gpu = true
  | _ => False
  end.

(** One segment of either loop: the reference vector is looked up, then
    the block runs. *)
Definition segment_step (G : globals) (pk : pack) (info : pystr)
    (speed : number) (use_gpu : bool) (ps : pystr) : M tensor :=
  ref_s ← lift (getitem pk (len ps - 1));
  synthesize G info use_gpu ps ref_s speed.

(** The chunk [(24000, torch.zeros(1).numpy())]. *)
Definition silence : chunk := (24000, [0%N]).

(** The body of the [for] loop of [generate_first], which returns on its
    first turn. *)
Definition first_turn (G : globals) (pk : pack) (speed : number)
    (use_gpu : bool) (segments : generator segment) : M (option chunk * pystr) :=
  match segments with
  | Yields (_, ps, _) _ =>
      audio ← segment_step G pk info_first speed use_gpu ps;
      mret (Some (24000, numpy audio), ps)
  | Raises e => raise e
  | StopIteration => mret (None, [])
  end.

(** [not l] *)
Definition is_nil {A} (l : list A) : bool :=
  match l with [] => true | _ => false end.

(** The chunks of the segments that gave [audios], from a turn of the
    loop where the flag [first] has the given value. *)
Definition chunks (first : bool) (audios : list tensor) : list chunk :=
  if first then stream audios else map (fun b => (24000, b)) audios.

(** An event of a loop over [segments]: a chunk handed to the consumer,
    or an event of the block of one of the segments, whose reference
    vector is the pack's item at the length of its phonemes minus one. *)
Definition loop_event (pk : pack) (speed : number) (use_gpu : bool)
    (segments : generator segment) (ev : event) : Prop :=
  match ev with
  | EvYield _ => True
  | _ => exists seg ref_s,
           gen_In seg segments
           /\ getitem pk (len (phonemes seg) - 1) = Ok ref_s
           /\ block_event (phonemes seg) ref_s speed use_gpu ev
  end.

(** A run of whitespace. *)
Definition spaces (s : pystr) : Prop := Forall (fun c => isspace c = true) s.

(** An event of a run whose effective acceleration flag is [use_gpu]:
    the accelerated backend, the warning and the notice only occur when
    the flag is set. *)
Definition run_event (use_gpu : bool) (ev : event) : Prop :=
  match ev with
  | EvSynth gpu _ _ _ => gpu = true -> use_gpu = true
  | EvWarning _ | EvInfo _ => use_gpu = true
  | _ => True
  end.

(** ** The rest of the module: samples, catalogue, preload, API switch *)

(** [try: body except Exception as e: handler]; every exception of the
    model is an [Exception]. *)
Definition try_except {A} (body : M A) (handler : exn -> M A) : M A :=
  match out body with
  | Raised e => Run (log body ++ log (handler e)) (out (handler e))
  | Ok _ => body
  end.

(** The files the module reads: [open(path, 'r')] followed by reading
    gives the decoded text, newlines translated to ['\n'], or raises. *)
Record filesystem := { read_text : pystr -> outcome pystr }.

(** The lines a text file iterates over: each ends with its ['\n'],
    except possibly the last one. *)
Fixpoint file_lines_from (current : pystr) (text : pystr) : list pystr :=
  match text with
  | [] => match current with [] => [] | _ => [rev current] end
  | c :: text' =>
      if (c =? 10)%N then rev (c :: current) :: file_lines_from [] text'
      else file_lines_from (c :: current) text'
  end.

Definition file_lines (text : pystr) : list pystr := file_lines_from [] text.

(** [random.choice(seq)], the generator drawing [draw]: an empty
    sequence raises [IndexError], otherwise the item at an index below
    the length. *)
Definition random_choice {A} (draw : nat) (seq : list A) : outcome A :=
  match seq with
  | [] => Raised IndexError
  | _ => getitem seq (Z.of_nat (draw mod length seq))
  end.

Definition en_txt : pystr := py "C:\kuku\Kokoro-TTS\en.txt".
Definition gatsby5k_md : pystr := py "C:\kuku\Kokoro-TTS\gatsby5k.md".
Definition frankenstein5k_md : pystr := py "C:\kuku\Kokoro-TTS\frankenstein5k.md".

Definition get_random_quote (fs : filesystem) (draw : nat) : M pystr :=
  try_except
    (text ← lift (read_text fs en_txt);
     let random_quotes := map strip (file_lines text) in
     quote ← lift (random_choice draw random_quotes);
     mret quote)
    (fun e => mret (py "Error loading quote.")).

Definition get_gatsby (fs : filesystem) : M pystr :=
  try_except
    (content ← lift (read_text fs gatsby5k_md);
     let text := strip content in
     mret text)
    (fun e => mret (py "Error loading Gatsby sample.")).

Definition get_frankenstein (fs : filesystem) : M pystr :=
  try_except
    (content ← lift (read_text fs frankenstein5k_md);
     let text := strip content in
     mret text)
    (fun e => mret (py "Error loading Frankenstein sample.")).

(** [CHOICES.values()], in the order of the dictionary; the keys are the
    labels of the dropdown and play no part in the code below. *)
Definition CHOICES_values : list pystr :=
  map py
    ["af_heart"; "af_bella"; "af_nicole"; "af_aoede"; "af_kore"; "af_sarah";
     "af_nova"; "af_sky"; "af_alloy"; "af_jessica"; "af_river";
     "am_michael"; "am_fenrir"; "am_puck"; "am_echo"; "am_eric"; "am_liam";
     "am_onyx"; "am_santa"; "am_adam";
     "bf_emma"; "bf_isabella"; "bf_alice"; "bf_lily";
     "bm_george"; "bm_fable"; "bm_lewis"; "bm_daniel"]%string.

(** The preload loop over [voices], from the count [voice_count]; the
    module runs it over [CHOICES.values()] from [0]. *)
Fixpoint preload (G : globals) (voices : list pystr) (voice_count : nat) : M nat :=
  match voices with
  | [] => mret voice_count
  | v :: later =>
      voice_count ←
        try_except
          (c ← lift (getitem v 0);
           pipeline ← pipelines_getitem G c;
           call_load_voice pipeline v;;
           mret (S voice_count))
          (fun e => mret voice_count);
      preload G later voice_count
  end.

(** [os.getenv('SPACE_ID') != r'c:\kuku\Kokoro-82M'] *)
Definition API_OPEN (SPACE_ID : option pystr) : bool :=
  negb (bool_decide (SPACE_ID = Some (py "c:\kuku\Kokoro-82M"))).

(** [None if API_OPEN else False] *)
Definition API_NAME (SPACE_ID : option pystr) : option bool :=
  if API_OPEN SPACE_ID then None else Some false.

(** ** More vocabulary *)

(** How many items a generator yields. *)
Fixpoint gen_length {A} (g : generator A) : nat :=
  match g with
  | Yields _ rest => S (gen_length rest)
  | _ => 0
  end.

(** The voice loads: its first character names a pipeline that accepts it. *)
Definition loads (G : globals) (v : pystr) : bool :=
  match getitem v 0 with
  | Ok c =>
      match pipelines G !! c with
      | Some p => match load_voice p v with Ok _ => true | Raised _ => false end
      | None => false
      end
  | Raised _ => false
  end.

(** The first character of the voice names a pipeline. *)
Definition has_pipeline (G : globals) (v : pystr) : bool :=
  match getitem v 0 with
  | Ok c => match pipelines G !! c with Some _ => true | None => false end
  | Raised _ => false
  end.

(** The two backend calls of a segment that falls back. *)
Definition fallback_calls (pk : pack) (speed : number) (seg : segment)
    : list (bool * pystr * tensor * number) :=
  match getitem pk (len (phonemes seg) - 1) with
  | Ok ref_s => [(true, phonemes seg, ref_s, speed);
                 (false, phonemes seg, ref_s, speed)]
  | Raised _ => []
  end.

(** ** Stubs for concrete runs *)

Module Stub.

(** A pipeline that loads [pk] for every voice and yields [segs] for
    every text but the empty one. *)
Definition pipeline (pk : pack) (segs : list segment) : KPipeline :=
  {| load_voice := fun _ => Ok pk;
     call := fun text _ _ =>
               match text with [] => StopIteration | _ => gen_of_list segs end |}.

(** A model that answers with the reference vector followed by the
    phonemes. *)
Definition echo : KModel := {| forward := fun ps ref_s _ => Ok (ref_s ++ ps) |}.

(** A model out of quota. *)
Definition quota : KModel :=
  {| forward := fun _ _ _ => Raised (GrError (py "quota")) |}.

(** A model that fails on the phonemes [bad] only. *)
Definition fails_on (bad : pystr) : KModel :=
  {| forward := fun ps ref_s _ =>
       if decide (ps = bad) then Raised (GrError (py "failed"))
       else Ok (ref_s ++ ps) |}.

Definition pk3 : pack := [[1%N]; [2%N]; [3%N]].

Definition seg (s : string) : segment := (py s, py s, None).

Definition segs3 : list segment := [seg "ab"; seg "c"; seg "def"].

(** Acceleration available, both backends present. *)
Definition G (gpu_model cpu_model : KModel) (limit : option N) : globals :=
  {| CUDA_AVAILABLE := true;
     CHAR_LIMIT := limit;
     models := <[ true := gpu_model ]> {[ false := cpu_model ]};
     pipelines := {[ 97%N := pipeline pk3 segs3 ]} |}.

(** No acceleration, the standard backend only. *)
Definition G_cpu (cpu_model : KModel) (limit : option N) : globals :=
  {| CUDA_AVAILABLE := false;
     CHAR_LIMIT := limit;
     models := {[ false := cpu_model ]};
     pipelines := {[ 97%N := pipeline pk3 segs3 ]} |}.

Definition voice : pystr := py "af_heart".
Definition speed : number := Int 1.

(** A model that raises something that is not a generation error. *)
Definition broken : KModel :=
  {| forward := fun _ _ _ => Raised (OtherError (py "RuntimeError") (py "CUDA")) |}.

(** A pipeline whose sequence raises after the segments [segs]. *)
Definition raising_pipeline (pk : pack) (segs : list segment) (e : exn) : KPipeline :=
  {| load_voice := fun _ => Ok pk;
     call := fun _ _ _ => gen_app segs (Raises e) |}.

(** A pipeline that loads no voice. *)
Definition voiceless_pipeline : KPipeline :=
  {| load_voice := fun _ => Raised (OtherError (py "FileNotFoundError") (py "voice"));
     call := fun _ _ _ => StopIteration |}.

(** A file system with the one file [path], holding [text]. *)
Definition one_file (path text : pystr) : filesystem :=
  {| read_text := fun q =>
       if decide (q = path) then Ok text
       else Raised (OtherError (py "FileNotFoundError") q) |}.

End Stub.

(** ** Unfolding the computations *)

Ltac unfold_block :=
  unfold synthesize, try_except_gr, forward_gpu, models_getitem, call_model,
    gr_Warning, gr_Info, emit, raise, ret, synth_outcome, backend;
  unfold mbind, M_bind, mret, M_ret, bind, ret.

Ltac unfold_monad := unfold mbind, M_bind, mret, M_ret, bind, lift, ret, raise, emit.

(** ** The Python primitives on small inputs *)

Example strip_both_ends : strip (py "  ab c  ") = py "ab c".
Proof. vm_compute. reflexivity. Qed.

Example strip_unicode_space : strip [160%N; 97%N; 8232%N; 10%N] = [97%N].
Proof. vm_compute. reflexivity. Qed.

Example repr_plain : repr_str (py "quota") = py "'quota'".
Proof. vm_compute. reflexivity. Qed.

Example repr_with_single_quote :
  repr_str (py "can't") = 34%N :: py "can't" ++ [34%N].
Proof. vm_compute. reflexivity. Qed.

Example repr_with_both_quotes :
  repr_str [39%N; 34%N] = [39%N; 92%N; 39%N; 34%N; 39%N].
Proof. vm_compute. reflexivity. Qed.

Example repr_escapes :
  repr_str [97%N; 10%N; 92%N; 1%N; 233%N; 8203%N; 128640%N]
  = py "'a\n\\\x01" ++ [233%N] ++ py "\u200b" ++ [128640%N; 39%N].
Proof. vm_compute. reflexivity. Qed.

Example str_of_gradio_error : exn_str (GrError (py "quota")) = py "'quota'".
Proof. vm_compute. reflexivity. Qed.

Example str_of_wrapped_error :
  exn_str (GrErrorOf (GrError (py "quota"))) = py "Error('quota')".
Proof. vm_compute. reflexivity. Qed.

Example getitem_minus_one : getitem [10%N; 20%N; 30%N] (-1) = Ok 30%N.
Proof. vm_compute. reflexivity. Qed.

Example getitem_past_the_end : getitem [10%N; 20%N] 2 = Raised IndexError.
Proof. vm_compute. reflexivity. Qed.

Example getitem_empty_string : getitem (py "") 0 = Raised IndexError.
Proof. vm_compute. reflexivity. Qed.

Example limit_in_the_original_space :
  CHAR_LIMIT (module_globals (Some (py "c:/kuku/Kokoro-TTS")) Stub.echo
                (Stub.pipeline [] []) (Stub.pipeline [] []))
  = Some 500000%N.
Proof. vm_compute. reflexivity. Qed.

Example no_limit_in_a_duplicate :
  CHAR_LIMIT (module_globals None Stub.echo
                (Stub.pipeline [] []) (Stub.pipeline [] []))
  = None.
Proof. vm_compute. reflexivity. Qed.

(** ** The [try]/[except] block *)

Lemma generate_all_loop_Yields G pk speed use_gpu first g ps o rest :
  generate_all_loop G pk speed use_gpu first (Yields (g, ps, o) rest) =
  (ref_s ← lift (getitem pk (len ps - 1));
   audio ← synthesize G info_all use_gpu ps ref_s speed;
   emit (EvYield (24000, numpy audio));;
   first' ← (if first
             then emit (EvYield (24000, numpy (torch_zeros 1)));; mret false
             else mret first);
   generate_all_loop G pk speed use_gpu first' rest).
Proof. reflexivity. Qed.

Section Block.

Variables (G : globals) (info ps : pystr) (ref_s : tensor) (speed : number).

(** The block computes the policy. *)
Lemma synthesize_out use_gpu :
  out (synthesize G info use_gpu ps ref_s speed)
  = synth_outcome G use_gpu ps ref_s speed.
Proof.
  unfold_block.
  destruct use_gpu; cbn.
  - destruct (models G !! true) as [mg|]; cbn; [|reflexivity].
    destruct (forward mg ps ref_s speed) as [a|e]; cbn; [reflexivity|].
    destruct (is_gr_error e); cbn; [|reflexivity].
    destruct (models G !! false) as [mc|]; cbn; [|reflexivity].
    destruct (forward mc ps ref_s speed); reflexivity.
  - destruct (models G !! false) as [mc|]; cbn; [|reflexivity].
    destruct (forward mc ps ref_s speed) as [a|e]; cbn; [reflexivity|].
    destruct (is_gr_error e); reflexivity.
Qed.


Lemma synthesize_fallback mg mc e :
  models G !! true = Some mg -> models G !! false = Some mc ->
  forward mg ps ref_s speed = Raised e -> is_gr_error e = true ->
  synthesize G info true ps ref_s speed
  = Run [EvSynth true ps ref_s speed; EvWarning (exn_str e); EvInfo info;
         EvSynth false ps ref_s speed]
        (forward mc ps ref_s speed).
Proof.
  intros Hg Hc He Hgr. unfold_block. rewrite Hg. cbn. rewrite He, Hgr, Hc. cbn.
  destruct (forward mc ps ref_s speed); reflexivity.
Qed.

Lemma synthesize_accelerated mg :
  models G !! true = Some mg ->
  (forall e, forward mg ps ref_s speed = Raised e -> is_gr_error e = false) ->
  synthesize G info true ps ref_s speed
  = Run [EvSynth true ps ref_s speed] (forward mg ps ref_s speed).
Proof.
  intros Hg He. unfold_block. rewrite Hg. cbn.
  destruct (forward mg ps ref_s speed) as [a|e] eqn:E; cbn; [reflexivity|].
  rewrite (He e eq_refl). reflexivity.
Qed.

Lemma synthesize_events use_gpu :
  Forall (block_event ps ref_s speed use_gpu)
         (log (synthesize G info use_gpu ps ref_s speed)).
Proof.
  unfold_block.
  destruct use_gpu; cbn.
  - destruct (models G !! true) as [mg|]; cbn; [|constructor].
    destruct (forward mg ps ref_s speed) as [a|e]; cbn.
    + repeat constructor.
    + destruct (is_gr_error e); cbn; [|repeat constructor].
      destruct (models G !! false) as [mc|]; cbn.
      * destruct (forward mc ps ref_s speed); cbn; repeat constructor; discriminate.
      * repeat constructor.
  - destruct (models G !! false) as [mc|]; cbn; [|constructor].
    destruct (forward mc ps ref_s speed) as [a|e]; cbn.
    + repeat constructor; discriminate.
    + destruct (is_gr_error e); cbn; repeat constructor; discriminate.
Qed.

(** The block calls a backend at most twice, and twice only as the
    accelerated one followed by the standard one. *)
Lemma synthesize_calls use_gpu :
  let calls := synth_calls (log (synthesize G info use_gpu ps ref_s speed)) in
  calls = [] \/ calls = [(use_gpu, ps, ref_s, speed)]
  \/ (use_gpu = true
      /\ calls = [(true, ps, ref_s, speed); (false, ps, ref_s, speed)]).
Proof.
  unfold_block.
  destruct use_gpu; cbn.
  - destruct (models G !! true) as [mg|]; cbn; [|auto].
    destruct (forward mg ps ref_s speed) as [a|e]; cbn; [auto|].
    destruct (is_gr_error e); cbn; [|auto].
    destruct (models G !! false) as [mc|]; cbn; [|auto].
    destruct (forward mc ps ref_s speed); cbn; auto.
  - destruct (models G !! false) as [mc|]; cbn; [|auto].
    destruct (forward mc ps ref_s speed) as [a|e]; cbn; [auto|].
    destruct (is_gr_error e); cbn; auto.
Qed.

End Block.

(** ** One segment: look-up, then the block *)

Lemma segment_step_out G pk info speed use_gpu g ps o :
  out (segment_step G pk info speed use_gpu ps)
  = segment_outcome G pk speed use_gpu (g, ps, o).
Proof.
  unfold segment_step, segment_outcome, phonemes; cbn.
  unfold mbind, M_bind, bind, lift; cbn.
  destruct (getitem pk (len ps - 1)) as [r|e]; cbn; [|reflexivity].
  apply synthesize_out.
Qed.

Lemma segment_step_events G pk info speed use_gpu ps :
  Forall (fun ev => exists ref_s, getitem pk (len ps - 1) = Ok ref_s
                                  /\ block_event ps ref_s speed use_gpu ev)
         (log (segment_step G pk info speed use_gpu ps)).
Proof.
  unfold segment_step, mbind, M_bind, bind, lift; cbn.
  destruct (getitem pk (len ps - 1)) as [r|e]; cbn; [|constructor].
  eapply Forall_impl; [apply synthesize_events|].
  intros ev Hev. exists r. split; [reflexivity|exact Hev].
Qed.

Lemma segment_step_quiet G pk info speed use_gpu ps :
  yields (log (segment_step G pk info speed use_gpu ps)) = []
  /\ pipeline_calls (log (segment_step G pk info speed use_gpu ps)) = [].
Proof.
  pose proof (segment_step_events G pk info speed use_gpu ps) as H.
  induction H as [|ev l Hev _ [IH1 IH2]]; [split; reflexivity|].
  destruct Hev as (r & _ & Hev).
  destruct ev; cbn in Hev; try contradiction; cbn; auto.
Qed.

Lemma yields_app l1 l2 : yields (l1 ++ l2) = yields l1 ++ yields l2.
Proof. apply omap_app. Qed.

Lemma pipeline_calls_app l1 l2 :
  pipeline_calls (l1 ++ l2) = pipeline_calls l1 ++ pipeline_calls l2.
Proof. apply omap_app. Qed.

(** ** One turn of the streaming loop *)

Lemma generate_all_loop_ok G pk speed use_gpu first seg rest a :
  segment_outcome G pk speed use_gpu seg = Ok a ->
  generate_all_loop G pk speed use_gpu first (Yields seg rest)
  = Run (log (segment_step G pk info_all speed use_gpu (phonemes seg))
         ++ EvYield (24000, a) :: (if first then [EvYield silence] else [])
         ++ log (generate_all_loop G pk speed use_gpu false rest))
        (out (generate_all_loop G pk speed use_gpu false rest)).
Proof.
  destruct seg as [[g ps] o]. intros Ha.
  rewrite generate_all_loop_Yields.
  rewrite <- (segment_step_out G pk info_all) in Ha.
  unfold phonemes; cbn [fst snd].
  unfold segment_step in *.
  unfold mbind, M_bind, mret, M_ret, bind, lift, emit, ret in *; cbn in *.
  destruct (getitem pk (len ps - 1)) as [r|e]; cbn in *; [|discriminate].
  rewrite Ha. cbn.
  destruct first; cbn; rewrite <- ?app_assoc; reflexivity.
Qed.

Lemma generate_all_loop_raised G pk speed use_gpu first seg rest e :
  segment_outcome G pk speed use_gpu seg = Raised e ->
  generate_all_loop G pk speed use_gpu first (Yields seg rest)
  = Run (log (segment_step G pk info_all speed use_gpu (phonemes seg)))
        (Raised e).
Proof.
  destruct seg as [[g ps] o]. intros Ha.
  rewrite generate_all_loop_Yields.
  rewrite <- (segment_step_out G pk info_all) in Ha.
  unfold phonemes; cbn [fst snd].
  unfold segment_step in *.
  unfold mbind, M_bind, bind, lift in *; cbn in *.
  destruct (getitem pk (len ps - 1)) as [r|e']; cbn in *.
  - rewrite Ha. reflexivity.
  - congruence.
Qed.

(** ** The set-up that precedes both loops *)

Lemma generate_all_resolved G text voice speed use_gpu p pk :
  resolves G voice p pk ->
  generate_all G text voice speed use_gpu
  = let loop := generate_all_loop G pk speed (use_gpu && CUDA_AVAILABLE G) true
                  (call p (normalized G text) voice (Some speed)) in
    Run ([EvLoadVoice voice; EvPipeline (normalized G text) voice (Some speed)]
         ++ log loop) (out loop).
Proof.
  intros (c & Hc & Hp & Hl).
  unfold generate_all, pipelines_getitem, call_load_voice, call_pipeline.
  fold (normalized G text).
  unfold_monad. rewrite Hc. cbn. rewrite Hp. cbn. rewrite Hl. cbn.
  reflexivity.
Qed.

Lemma generate_first_resolved G text voice speed use_gpu p pk :
  resolves G voice p pk ->
  generate_first G text voice speed use_gpu
  = let turn := first_turn G pk speed (use_gpu && CUDA_AVAILABLE G)
                  (call p (normalized G text) voice (Some speed)) in
    Run ([EvLoadVoice voice; EvPipeline (normalized G text) voice (Some speed)]
         ++ log turn) (out turn).
Proof.
  intros (c & Hc & Hp & Hl).
  unfold generate_first, pipelines_getitem, call_load_voice, call_pipeline.
  fold (normalized G text).
  unfold_monad. rewrite Hc. cbn. rewrite Hp. cbn. rewrite Hl. cbn.
  destruct (call p (normalized G text) voice (Some speed)) as [|e|[[g ps] o] rest];
    cbn; try reflexivity.
  unfold segment_step. unfold_monad. cbn.
  destruct (getitem pk (len ps - 1)) as [r|e]; cbn; [|reflexivity].
  fold info_first.
  change (try_except_gr _ _)
    with (synthesize G info_first (use_gpu && CUDA_AVAILABLE G) ps r speed).
  destruct (out (synthesize G info_first (use_gpu && CUDA_AVAILABLE G) ps r speed));
    cbn; rewrite ?app_nil_r; reflexivity.
Qed.

(** ** A run of segments that are all synthesised *)

Lemma generate_all_loop_prefix G pk speed use_gpu segs audios :
  Forall2 (fun seg a => segment_outcome G pk speed use_gpu seg = Ok a) segs audios ->
  forall first g,
  exists L,
    generate_all_loop G pk speed use_gpu first (gen_app segs g)
    = Run (L ++ log (generate_all_loop G pk speed use_gpu (first && is_nil segs) g))
          (out (generate_all_loop G pk speed use_gpu (first && is_nil segs) g))
    /\ yields L = chunks first audios.
Proof.
  induction 1 as [|seg a segs audios Ha _ IH]; intros first g.
  - exists []. rewrite andb_true_r. cbn. split; [|destruct first; reflexivity].
    destruct (generate_all_loop G pk speed use_gpu first g); reflexivity.
  - destruct (IH false g) as (L & HL & HY).
    cbn [gen_app is_nil]. rewrite andb_false_r.
    rewrite (generate_all_loop_ok _ _ _ _ _ _ _ _ Ha), HL. cbn [log out].
    exists (log (segment_step G pk info_all speed use_gpu (phonemes seg))
            ++ EvYield (24000, a) :: (if first then [EvYield silence] else []) ++ L).
    split.
    + f_equal. rewrite <- !app_assoc. cbn. rewrite <- !app_assoc. reflexivity.
    + rewrite yields_app, (proj1 (segment_step_quiet _ _ _ _ _ _)).
      cbn. rewrite yields_app, HY. destruct first; reflexivity.
Qed.

Lemma length_stream audios :
  length (stream audios)
  = match length audios with O => O | S k => S (S k) end.
Proof. destruct audios; cbn; [reflexivity|]. now rewrite length_map. Qed.

(** ** Streaming: how many chunks, and which *)

(** C1.  When the voice resolves, the segmenter produces exactly the [k]
    segments [segs] for the normalized text, and each of them is
    synthesised (to the audio listed in [audios], by the dispatch policy),
    [generate_all] runs to its end without raising and yields one audio
    chunk per segment, in order, at 24000 Hz, with the one-sample zero
    chunk right after the first one and nowhere else: [k + 1] chunks when
    [k >= 1], none when [k = 0]. *)
Theorem generate_all_chunk_count G text voice speed use_gpu p pk segs audios :
  resolves G voice p pk ->
  call p (normalized G text) voice (Some speed) = gen_of_list segs ->
  Forall2 (fun seg a =>
             segment_outcome G pk speed (use_gpu && CUDA_AVAILABLE G) seg = Ok a)
          segs audios ->
  out (generate_all G text voice speed use_gpu) = Ok tt
  /\ yields (log (generate_all G text voice speed use_gpu))
     = match audios with
       | [] => []
       | a :: later =>
           (24000, a) :: (24000, [0%N]) :: map (fun b => (24000, b)) later
       end
  /\ ((1 <= length segs)%nat ->
      length (yields (log (generate_all G text voice speed use_gpu)))
      = (length segs + 1)%nat)
  /\ (length segs = 0%nat ->
      yields (log (generate_all G text voice speed use_gpu)) = []).
Proof.
  intros Hres Hcall Hok.
  rewrite (generate_all_resolved _ _ _ _ _ _ _ Hres), Hcall. cbn zeta.
  unfold gen_of_list.
  destruct (generate_all_loop_prefix _ _ _ _ _ _ Hok true StopIteration)
    as (L & HL & HY).
  rewrite HL. cbn [log out].
  assert (Hstop : forall b, generate_all_loop G pk speed
                    (use_gpu && CUDA_AVAILABLE G) b StopIteration = Run [] (Ok tt))
    by reflexivity.
  rewrite Hstop. cbn [log out].
  rewrite app_nil_r, yields_app. cbn [yields omap app].
  change (omap _ L) with (yields L). rewrite HY. unfold chunks, stream.
  pose proof (Forall2_length _ _ _ Hok) as Hlen.
  repeat split.
  - intros Hk. destruct audios as [|a later]; cbn in *; [lia|].
    rewrite length_map. lia.
  - intros Hk. destruct audios; [reflexivity|]. cbn in Hlen. lia.
Qed.

Lemma generate_all_chunk_count_witness :
  out (generate_all (Stub.G Stub.quota Stub.echo None) (py "hello")
         Stub.voice Stub.speed true) = Ok tt
  /\ yields (log (generate_all (Stub.G Stub.quota Stub.echo None) (py "hello")
                    Stub.voice Stub.speed true))
     = [(24000, 2%N :: py "ab"); (24000, [0%N]); (24000, 1%N :: py "c");
        (24000, 3%N :: py "def")]
  /\ ((1 <= 3)%nat ->
      length (yields (log (generate_all (Stub.G Stub.quota Stub.echo None)
                             (py "hello") Stub.voice Stub.speed true)))
      = 4%nat)
  /\ (3%nat = 0%nat ->
      yields (log (generate_all (Stub.G Stub.quota Stub.echo None) (py "hello")
                     Stub.voice Stub.speed true)) = []).
Proof.
  apply (generate_all_chunk_count (Stub.G Stub.quota Stub.echo None)
           (py "hello") Stub.voice Stub.speed true
           (Stub.pipeline Stub.pk3 Stub.segs3) Stub.pk3 Stub.segs3
           [2%N :: py "ab"; 1%N :: py "c"; 3%N :: py "def"]).
  - exists 97%N. repeat split; vm_compute; reflexivity.
  - reflexivity.
  - repeat (constructor; [vm_compute; reflexivity|]). constructor.
Defined.

(** C3.  When the segments [pre] are synthesised and the next one, [seg],
    fails fatally with [e], [generate_all] ends by raising [e]: the log
    stops with the events of the failing segment, the chunks yielded are
    exactly those of [pre] (with the silence marker after the first, when
    there is a first), and nothing is yielded for [seg] or for the
    segments after it. *)
Theorem generate_all_fatal_stops G text voice speed use_gpu p pk pre seg rest
    audios e :
  resolves G voice p pk ->
  call p (normalized G text) voice (Some speed) = gen_app pre (Yields seg rest) ->
  Forall2 (fun s a =>
             segment_outcome G pk speed (use_gpu && CUDA_AVAILABLE G) s = Ok a)
          pre audios ->
  segment_outcome G pk speed (use_gpu && CUDA_AVAILABLE G) seg = Raised e ->
  out (generate_all G text voice speed use_gpu) = Raised e
  /\ yields (log (generate_all G text voice speed use_gpu)) = stream audios
  /\ length (yields (log (generate_all G text voice speed use_gpu)))
     = (length pre + (if is_nil pre then 0 else 1))%nat
  /\ exists L,
       log (generate_all G text voice speed use_gpu)
       = [EvLoadVoice voice; EvPipeline (normalized G text) voice (Some speed)]
         ++ L
         ++ log (segment_step G pk info_all speed (use_gpu && CUDA_AVAILABLE G)
                   (phonemes seg))
       /\ yields L = stream audios.
Proof.
  intros Hres Hcall Hok Hbad.
  rewrite (generate_all_resolved _ _ _ _ _ _ _ Hres), Hcall. cbn zeta.
  destruct (generate_all_loop_prefix _ _ _ _ _ _ Hok true (Yields seg rest))
    as (L & HL & HY).
  rewrite HL, (generate_all_loop_raised _ _ _ _ _ _ _ _ Hbad). cbn [log out].
  unfold chunks in HY.
  assert (HYall : yields
            ([EvLoadVoice voice; EvPipeline (normalized G text) voice (Some speed)]
             ++ L ++ log (segment_step G pk info_all speed
                            (use_gpu && CUDA_AVAILABLE G) (phonemes seg)))
          = stream audios).
  { rewrite !yields_app, (proj1 (segment_step_quiet _ _ _ _ _ _)), HY.
    cbn. apply app_nil_r. }
  split; [reflexivity|]. split; [exact HYall|]. split.
  - rewrite HYall, length_stream, <- (Forall2_length _ _ _ Hok).
    destruct pre; cbn; lia.
  - exists L. split; [reflexivity|exact HY].
Qed.

Lemma generate_all_fatal_stops_witness :
  out (generate_all (Stub.G Stub.quota (Stub.fails_on (py "def")) None)
         (py "hello") Stub.voice Stub.speed true)
  = Raised (GrError (py "failed"))
  /\ yields (log (generate_all (Stub.G Stub.quota (Stub.fails_on (py "def")) None)
                    (py "hello") Stub.voice Stub.speed true))
     = [(24000, 2%N :: py "ab"); (24000, [0%N]); (24000, 1%N :: py "c")].
Proof.
  pose proof (generate_all_fatal_stops
                (Stub.G Stub.quota (Stub.fails_on (py "def")) None)
                (py "hello") Stub.voice Stub.speed true
                (Stub.pipeline Stub.pk3 Stub.segs3) Stub.pk3
                [Stub.seg "ab"; Stub.seg "c"] (Stub.seg "def") StopIteration
                [2%N :: py "ab"; 1%N :: py "c"] (GrError (py "failed"))) as H.
  destruct H as (Hout & Hy & _).
  - exists 97%N. repeat split; vm_compute; reflexivity.
  - reflexivity.
  - repeat (constructor; [vm_compute; reflexivity|]). constructor.
  - vm_compute; reflexivity.
  - split; [exact Hout|exact Hy].
Defined.

(** ** Dispatch: one fall-back, no retry *)



(** ** What the loops say to the collaborators *)

Lemma loop_event_step pk speed use_gpu seg rest l :
  Forall (fun ev => exists ref_s,
            getitem pk (len (phonemes seg) - 1) = Ok ref_s
            /\ block_event (phonemes seg) ref_s speed use_gpu ev) l ->
  Forall (loop_event pk speed use_gpu (Yields seg rest)) l.
Proof.
  intros H. eapply Forall_impl; [exact H|]. intros ev (r & Hr & Hev).
  destruct ev; cbn in Hev; try contradiction; cbn;
    exists seg, r; repeat split; auto; apply Hev.
Qed.

Lemma loop_event_later pk speed use_gpu seg rest l :
  Forall (loop_event pk speed use_gpu rest) l ->
  Forall (loop_event pk speed use_gpu (Yields seg rest)) l.
Proof.
  intros H. eapply Forall_impl; [exact H|]. intros ev Hev.
  destruct ev; cbn in *; auto;
    destruct Hev as (s & r & Hin & Hr & Hev); exists s, r; auto.
Qed.

Lemma generate_all_loop_events G pk speed use_gpu segments :
  forall first,
  Forall (loop_event pk speed use_gpu segments)
         (log (generate_all_loop G pk speed use_gpu first segments)).
Proof.
  induction segments as [|e|seg rest IH]; intros first; try constructor.
  destruct (segment_outcome G pk speed use_gpu seg) as [a|e] eqn:E.
  - rewrite (generate_all_loop_ok _ _ _ _ _ _ _ _ E). cbn [log].
    apply Forall_app. split.
    + apply loop_event_step, segment_step_events.
    + constructor; [exact I|]. apply Forall_app. split.
      * destruct first; repeat constructor.
      * apply loop_event_later, IH.
  - rewrite (generate_all_loop_raised _ _ _ _ _ _ _ _ E). cbn [log].
    apply loop_event_step, segment_step_events.
Qed.

Lemma first_turn_events G pk speed use_gpu segments :
  Forall (loop_event pk speed use_gpu segments)
         (log (first_turn G pk speed use_gpu segments)).
Proof.
  destruct segments as [|e|[[g ps] o] rest]; try constructor.
  cbn [first_turn]. unfold_monad.
  pose proof (segment_step_events G pk info_first speed use_gpu ps) as H.
  apply (loop_event_step pk speed use_gpu (g, ps, o) rest) in H.
  destruct (out (segment_step G pk info_first speed use_gpu ps));
    cbn [log]; rewrite ?app_nil_r; exact H.
Qed.

Lemma loop_event_no_pipeline pk speed use_gpu segments l :
  Forall (loop_event pk speed use_gpu segments) l -> pipeline_calls l = [].
Proof.
  induction 1 as [|ev l Hev _ IH]; [reflexivity|].
  destruct ev; cbn in *; auto.
  destruct Hev as (s & r & _ & _ & []).
Qed.

(** ** [str.strip] *)

Lemma lstrip_split s : exists lead, s = lead ++ lstrip s /\ spaces lead.
Proof.
  induction s as [|c s (lead & Hs & Hl)]; [exists []; split; [reflexivity|constructor]|].
  cbn. destruct (isspace c) eqn:E.
  - exists (c :: lead). split; [cbn; congruence|constructor; assumption].
  - exists []. split; [reflexivity|constructor].
Qed.

Lemma lstrip_head s c : head (lstrip s) = Some c -> isspace c = false.
Proof.
  induction s as [|d s IH]; cbn; [discriminate|].
  destruct (isspace d) eqn:E; [exact IH|].
  cbn. intros [= <-]. exact E.
Qed.

Lemma rstrip_split s : exists trail, s = rstrip s ++ trail /\ spaces trail.
Proof.
  unfold rstrip. destruct (lstrip_split (rev s)) as (lead & Hs & Hl).
  exists (rev lead). split.
  - rewrite <- (rev_involutive s), Hs at 1. apply rev_app_distr.
  - apply List.Forall_rev, Hl.
Qed.

Lemma last_rev_head {A} (l : list A) : last l = head (rev l).
Proof.
  induction l as [|a l IH] using rev_ind; [reflexivity|].
  rewrite last_snoc, rev_app_distr. reflexivity.
Qed.

Lemma rstrip_last s c : last (rstrip s) = Some c -> isspace c = false.
Proof.
  unfold rstrip. rewrite last_rev_head, rev_involutive. apply lstrip_head.
Qed.

Lemma head_app_Some {A} (l1 l2 : list A) c :
  head l1 = Some c -> head (l1 ++ l2) = Some c.
Proof. destruct l1; [discriminate|exact id]. Qed.

(** [strip] removes a run of whitespace at each end and leaves a core
    that neither starts nor ends with whitespace. *)
Lemma strip_spec s :
  exists lead trail,
    s = lead ++ strip s ++ trail /\ spaces lead /\ spaces trail
    /\ (forall c, head (strip s) = Some c -> isspace c = false)
    /\ (forall c, last (strip s) = Some c -> isspace c = false).
Proof.
  unfold strip.
  destruct (lstrip_split s) as (lead & Hs & Hl).
  destruct (rstrip_split (lstrip s)) as (trail & Ht & Htr).
  exists lead, trail. repeat split; auto.
  - rewrite <- Ht. exact Hs.
  - intros c Hc. apply (lstrip_head s). rewrite Ht. apply head_app_Some, Hc.
  - apply rstrip_last.
Qed.

Lemma lstrip_spaces s : spaces s -> lstrip s = [].
Proof. induction 1 as [|c s Hc _ IH]; [reflexivity|]. cbn. now rewrite Hc. Qed.

Lemma strip_spaces s : spaces s -> strip s = [].
Proof. intros H. unfold strip. now rewrite (lstrip_spaces s H). Qed.

(** ** The text the segmenter receives *)

(** C4.  When the voice resolves, [generate_first] and [generate_all]
    each call the segmenter exactly once, with the voice, the speed and
    a text [t] such that: without a character limit, [t] is the text as
    given; with a limit, the text is a run of whitespace, a core that
    neither starts nor ends with whitespace, and a run of whitespace, and
    [t] is the first [limit] characters of the core.  With the limit 10,
    "abcdefghijklmnop" is handed over as "abcdefghij". *)
Theorem segmenter_text_normalized G text voice speed use_gpu p pk :
  resolves G voice p pk ->
  exists t,
    pipeline_calls (log (generate_first G text voice speed use_gpu))
    = [(t, voice, Some speed)]
    /\ pipeline_calls (log (generate_all G text voice speed use_gpu))
       = [(t, voice, Some speed)]
    /\ (CHAR_LIMIT G = None -> t = text)
    /\ (forall limit,
          CHAR_LIMIT G = Some limit ->
          exists lead core trail,
            text = lead ++ core ++ trail
            /\ spaces lead /\ spaces trail
            /\ (forall c, head core = Some c -> isspace c = false)
            /\ (forall c, last core = Some c -> isspace c = false)
            /\ t = firstn (N.to_nat limit) core)
    /\ (CHAR_LIMIT G = Some 10%N ->
        text = py "abcdefghijklmnop" -> t = py "abcdefghij").
Proof.
  intros Hres. exists (normalized G text).
  rewrite (generate_first_resolved _ _ _ _ _ _ _ Hres),
          (generate_all_resolved _ _ _ _ _ _ _ Hres).
  cbn zeta. cbn [log]. rewrite !pipeline_calls_app.
  rewrite (loop_event_no_pipeline _ _ _ _ _ (first_turn_events _ _ _ _ _)),
          (loop_event_no_pipeline _ _ _ _ _ (generate_all_loop_events _ _ _ _ _ _)).
  repeat split.
  - unfold normalized. now intros ->.
  - intros limit Hlim. unfold normalized. rewrite Hlim.
    destruct (strip_spec text) as (lead & trail & Ht & Hl & Htr & Hh & Hla).
    exists lead, (strip text), trail. repeat split; auto.
  - intros Hlim ->. unfold normalized. rewrite Hlim. vm_compute. reflexivity.
Qed.

Lemma segmenter_text_normalized_witness :
  exists t,
    pipeline_calls (log (generate_first (Stub.G Stub.echo Stub.echo (Some 10%N))
                           (py "abcdefghijklmnop") Stub.voice Stub.speed false))
    = [(t, Stub.voice, Some Stub.speed)]
    /\ t = py "abcdefghij".
Proof.
  destruct (segmenter_text_normalized (Stub.G Stub.echo Stub.echo (Some 10%N))
              (py "abcdefghijklmnop") Stub.voice Stub.speed false
              (Stub.pipeline Stub.pk3 Stub.segs3) Stub.pk3)
    as (t & Hf & _ & _ & _ & Hex).
  - exists 97%N. repeat split; vm_compute; reflexivity.
  - exists t. split; [exact Hf|]. apply Hex; reflexivity.
Defined.

(** ** [generate_first]: no segment, and the first segment only *)

(** C5.  When the voice resolves and the segmenter produces no segment
    for the normalized text, [generate_first] returns [(None, '')]
    without raising, after loading the voice and calling the segmenter
    and nothing else.  With a character limit, a text of whitespace only
    reaches the segmenter as the empty text. *)
Theorem generate_first_no_segment G text voice speed use_gpu p pk :
  resolves G voice p pk ->
  call p (normalized G text) voice (Some speed) = StopIteration ->
  generate_first G text voice speed use_gpu
  = Run [EvLoadVoice voice; EvPipeline (normalized G text) voice (Some speed)]
        (Ok (None, []))
  /\ (forall limit, CHAR_LIMIT G = Some limit -> spaces text ->
      normalized G text = []).
Proof.
  intros Hres Hcall. split.
  - rewrite (generate_first_resolved _ _ _ _ _ _ _ Hres), Hcall. reflexivity.
  - intros limit Hlim Hsp. unfold normalized, slice_to.
    rewrite Hlim, (strip_spaces text Hsp). apply firstn_nil.
Qed.

Lemma generate_first_no_segment_witness :
  generate_first (Stub.G Stub.echo Stub.echo (Some 500000%N)) (py "  ")
    Stub.voice Stub.speed true
  = Run [EvLoadVoice Stub.voice; EvPipeline [] Stub.voice (Some Stub.speed)]
        (Ok (None, [])).
Proof.
  refine (proj1 (generate_first_no_segment
                   (Stub.G Stub.echo Stub.echo (Some 500000%N)) (py "  ")
                   Stub.voice Stub.speed true
                   (Stub.pipeline Stub.pk3 Stub.segs3) Stub.pk3 _ _)).
  - exists 97%N. repeat split; vm_compute; reflexivity.
  - vm_compute. reflexivity.
Defined.

Lemma segment_step_models G G' pk info speed use_gpu ps :
  models G' = models G ->
  segment_step G' pk info speed use_gpu ps = segment_step G pk info speed use_gpu ps.
Proof.
  intros H. unfold segment_step, synthesize, forward_gpu, models_getitem.
  now rewrite H.
Qed.

Lemma first_turn_Yields G pk speed use_gpu g ps o rest :
  first_turn G pk speed use_gpu (Yields (g, ps, o) rest)
  = Run (log (segment_step G pk info_first speed use_gpu ps))
        (match out (segment_step G pk info_first speed use_gpu ps) with
         | Ok a => Ok (Some (24000, a), ps)
         | Raised e => Raised e
         end).
Proof.
  cbn [first_turn]. unfold_monad.
  destruct (out (segment_step G pk info_first speed use_gpu ps));
    cbn; rewrite ?app_nil_r; reflexivity.
Qed.

Lemma segment_step_calls G pk info speed use_gpu ps :
  (length (synth_calls (log (segment_step G pk info speed use_gpu ps))) <= 2)%nat.
Proof.
  unfold segment_step. unfold_monad.
  destruct (getitem pk (len ps - 1)) as [r|e]; cbn [out log app]; [|cbn; lia].
  destruct (synthesize_calls G info ps r speed use_gpu) as [H|[H|[_ H]]];
    cbn zeta in H; rewrite H; cbn; lia.
Qed.

(** C6.  When the voice resolves and the segmenter's first segment has
    phonemes [ps], [generate_first] returns the pair of the 24000 Hz chunk
    of that segment's audio and [ps] (or raises what the segment's
    synthesis raises); it calls a backend at most twice and only for
    [ps]; and the run is the same whatever follows the first segment in
    the segmenter's sequence, which is never pulled again. *)
Theorem generate_first_first_segment_only G text voice speed use_gpu p pk
    g ps o rest :
  resolves G voice p pk ->
  call p (normalized G text) voice (Some speed) = Yields (g, ps, o) rest ->
  (forall a,
     segment_outcome G pk speed (use_gpu && CUDA_AVAILABLE G) (g, ps, o) = Ok a ->
     out (generate_first G text voice speed use_gpu) = Ok (Some (24000, a), ps))
  /\ (forall e,
        segment_outcome G pk speed (use_gpu && CUDA_AVAILABLE G) (g, ps, o)
        = Raised e ->
        out (generate_first G text voice speed use_gpu) = Raised e)
  /\ (forall gpu ps' ref_s speed',
        In (EvSynth gpu ps' ref_s speed')
           (log (generate_first G text voice speed use_gpu)) ->
        ps' = ps)
  /\ (length (synth_calls (log (generate_first G text voice speed use_gpu)))
      <= 2)%nat
  /\ (forall G' p' rest',
        CUDA_AVAILABLE G' = CUDA_AVAILABLE G ->
        CHAR_LIMIT G' = CHAR_LIMIT G ->
        models G' = models G ->
        resolves G' voice p' pk ->
        call p' (normalized G' text) voice (Some speed) = Yields (g, ps, o) rest' ->
        generate_first G' text voice speed use_gpu
        = generate_first G text voice speed use_gpu).
Proof.
  intros Hres Hcall.
  rewrite (generate_first_resolved _ _ _ _ _ _ _ Hres), Hcall, first_turn_Yields.
  cbn zeta. cbn [log out].
  rewrite (segment_step_out _ _ _ _ _ g ps o).
  repeat split.
  - now intros a ->.
  - now intros e ->.
  - intros gpu ps' r s [H|[H|H]]; try discriminate.
    pose proof (segment_step_events G pk info_first speed
                  (use_gpu && CUDA_AVAILABLE G) ps) as Hev.
    apply (proj1 (List.Forall_forall _ _) Hev) in H.
    destruct H as (r' & _ & Hps & _). exact Hps.
  - cbn. apply segment_step_calls.
  - intros G' p' rest' Hcuda Hlim Hmod Hres' Hcall'.
    rewrite (generate_first_resolved _ _ _ _ _ _ _ Hres'), Hcall', first_turn_Yields.
    cbn zeta. cbn [log out].
    unfold normalized.
    rewrite Hcuda, Hlim, (segment_step_models G G' _ _ _ _ _ Hmod),
            (segment_step_out _ _ _ _ _ g ps o).
    reflexivity.
Qed.

Lemma generate_first_first_segment_only_witness :
  out (generate_first (Stub.G Stub.quota Stub.echo None) (py "hello")
         Stub.voice Stub.speed true)
  = Ok (Some (24000, 2%N :: py "ab"), py "ab").
Proof.
  refine (proj1 (generate_first_first_segment_only
                   (Stub.G Stub.quota Stub.echo None) (py "hello")
                   Stub.voice Stub.speed true
                   (Stub.pipeline Stub.pk3 Stub.segs3) Stub.pk3
                   (py "ab") (py "ab") None
                   (gen_of_list [Stub.seg "c"; Stub.seg "def"]) _ _)
                (2%N :: py "ab") _).
  - exists 97%N. repeat split; vm_compute; reflexivity.
  - vm_compute. reflexivity.
  - vm_compute. reflexivity.
Defined.

(** ** The reference vector *)

Lemma getitem_last_index {A} (l : list A) (ps : pystr) (x : A) :
  getitem l (len ps - 1) = Ok x ->
  (ps <> [] -> l !! (length ps - 1)%nat = Some x)
  /\ (ps = [] -> last l = Some x).
Proof.
  unfold getitem, len. intros H. split.
  - intros Hne. destruct ps as [|c ps]; [contradiction|].
    cbn [length] in *.
    destruct (Z.ltb_spec (Z.of_nat (S (length ps)) - 1) 0) as [Hlt|_]; [lia|].
    destruct (_ && _); [|discriminate].
    replace (Z.to_nat (Z.of_nat (S (length ps)) - 1)) with (length ps) in H by lia.
    replace (S (length ps) - 1)%nat with (length ps) by lia.
    destruct (l !! length ps); [congruence|discriminate].
  - intros ->.
    change (Z.of_nat (length (@nil N)) - 1) with (-1) in H.
    change (-1 <? 0) with true in H. cbv beta iota zeta in H.
    destruct (_ && _) eqn:E; [|discriminate].
    replace (Z.to_nat (-1 + Z.of_nat (length l))) with (pred (length l)) in H by lia.
    rewrite last_lookup. destruct (l !! pred (length l)); [congruence|discriminate].
Qed.

(** Every backend call found in a log is for a segment of the
    sequence, with the pack's item at the length of its phonemes minus
    one. *)
Lemma synth_events_use_pack_item G text voice speed use_gpu p pk
    gpu ps ref_s speed' :
  resolves G voice p pk ->
  In (EvSynth gpu ps ref_s speed')
     (log (generate_first G text voice speed use_gpu))
  \/ In (EvSynth gpu ps ref_s speed')
        (log (generate_all G text voice speed use_gpu)) ->
  getitem pk (len ps - 1) = Ok ref_s
  /\ (ps <> [] -> pk !! (length ps - 1)%nat = Some ref_s)
  /\ (ps = [] -> last pk = Some ref_s)
  /\ speed' = speed
  /\ exists seg,
       gen_In seg (call p (normalized G text) voice (Some speed))
       /\ phonemes seg = ps.
Proof.
  intros Hres Hin.
  assert (Hev : loop_event pk speed (use_gpu && CUDA_AVAILABLE G)
                  (call p (normalized G text) voice (Some speed))
                  (EvSynth gpu ps ref_s speed')).
  { destruct Hin as [Hin|Hin].
    - rewrite (generate_first_resolved _ _ _ _ _ _ _ Hres) in Hin.
      cbn zeta in Hin. cbn [log] in Hin.
      destruct Hin as [H|[H|H]]; try discriminate.
      exact (proj1 (List.Forall_forall _ _) (first_turn_events _ _ _ _ _) _ H).
    - rewrite (generate_all_resolved _ _ _ _ _ _ _ Hres) in Hin.
      cbn zeta in Hin. cbn [log] in Hin.
      destruct Hin as [H|[H|H]]; try discriminate.
      exact (proj1 (List.Forall_forall _ _)
               (generate_all_loop_events _ _ _ _ _ _) _ H). }
  destruct Hev as (seg & r & Hseg & Hr & Hps & Href & Hsp & _).
  subst. destruct (getitem_last_index _ _ _ Hr) as [Hne Hnil].
  repeat split; auto. exists seg. auto.
Qed.

Lemma synth_calls_app l1 l2 :
  synth_calls (l1 ++ l2) = synth_calls l1 ++ synth_calls l2.
Proof. apply omap_app. Qed.

(** When the backend stored under the flag exists, the block calls it
    first, with the phonemes, the reference vector and the speed it was
    given; a second call, if any, is the standard one with the same
    arguments. *)
Lemma synthesize_first_call G info use_gpu ps ref_s speed :
  is_Some (models G !! use_gpu) ->
  exists more,
    synth_calls (log (synthesize G info use_gpu ps ref_s speed))
    = (use_gpu, ps, ref_s, speed) :: more
    /\ Forall (fun c => c = (false, ps, ref_s, speed)) more.
Proof.
  intros [m Hm]. unfold_block.
  destruct use_gpu; rewrite Hm; cbn.
  - destruct (forward m ps ref_s speed) as [a|e]; cbn.
    + exists []. split; [reflexivity|constructor].
    + destruct (is_gr_error e); cbn.
      * destruct (models G !! false) as [mc|]; cbn.
        -- exists [(false, ps, ref_s, speed)].
           destruct (forward mc ps ref_s speed); cbn;
             split; try reflexivity; repeat constructor.
        -- exists []. split; [reflexivity|constructor].
      * exists []. split; [reflexivity|constructor].
  - exists [].
    destruct (forward m ps ref_s speed) as [a|e]; cbn;
      [|destruct (is_gr_error e); cbn]; split; try reflexivity; constructor.
Qed.

(** A segment that is synthesised found its reference vector and the
    backend stored under the flag. *)
Lemma segment_outcome_Ok G pk speed use_gpu seg a :
  segment_outcome G pk speed use_gpu seg = Ok a ->
  exists ref_s,
    getitem pk (len (phonemes seg) - 1) = Ok ref_s
    /\ is_Some (models G !! use_gpu).
Proof.
  unfold segment_outcome, synth_outcome, backend.
  destruct (getitem pk (len (phonemes seg) - 1)) as [r|e]; [|discriminate].
  intros H. exists r. split; [reflexivity|].
  destruct use_gpu.
  - destruct (models G !! true) as [mg|]; [eauto|discriminate].
  - destruct (models G !! false) as [mc|]; [eauto|discriminate].
Qed.

Lemma segment_step_first_call G pk info speed use_gpu ps ref_s :
  getitem pk (len ps - 1) = Ok ref_s ->
  is_Some (models G !! use_gpu) ->
  exists more,
    synth_calls (log (segment_step G pk info speed use_gpu ps))
    = (use_gpu, ps, ref_s, speed) :: more
    /\ Forall (fun c => c = (false, ps, ref_s, speed)) more.
Proof.
  intros Href Hm. unfold segment_step. unfold_monad.
  rewrite Href. cbn [out log app].
  destruct (synthesize_first_call G info use_gpu ps ref_s speed Hm)
    as (more & Hcalls & Hmore).
  exists more. split; [|exact Hmore].
  destruct (out (synthesize G info use_gpu ps ref_s speed)); exact Hcalls.
Qed.

(** Over segments that are all synthesised, the backend calls of the
    loop are those of each segment in turn, then those of the rest. *)
Lemma generate_all_loop_prefix_calls G pk speed use_gpu segs audios :
  Forall2 (fun seg a => segment_outcome G pk speed use_gpu seg = Ok a) segs audios ->
  forall first tail,
  exists callss,
    synth_calls (log (generate_all_loop G pk speed use_gpu first (gen_app segs tail)))
    = concat callss
      ++ synth_calls (log (generate_all_loop G pk speed use_gpu
                             (first && is_nil segs) tail))
    /\ Forall2 (fun seg calls =>
                  exists ref_s more,
                    getitem pk (len (phonemes seg) - 1) = Ok ref_s
                    /\ calls = (use_gpu, phonemes seg, ref_s, speed) :: more
                    /\ Forall (fun c => c = (false, phonemes seg, ref_s, speed)) more)
               segs callss.
Proof.
  induction 1 as [|seg a segs audios Ha _ IH]; intros first tail.
  - exists []. rewrite andb_true_r. split; [reflexivity|constructor].
  - destruct (IH false tail) as (callss & Hcalls & Hall).
    destruct (segment_outcome_Ok _ _ _ _ _ _ Ha) as (r & Hr & Hm).
    destruct (segment_step_first_call G pk info_all speed use_gpu
                (phonemes seg) r Hr Hm) as (more & Hstep & Hmore).
    exists (((use_gpu, phonemes seg, r, speed) :: more) :: callss).
    split.
    + cbn [gen_app is_nil]. rewrite andb_false_r.
      rewrite (generate_all_loop_ok _ _ _ _ _ _ _ _ Ha). cbn [log].
      rewrite synth_calls_app, Hstep.
      change (synth_calls (EvYield (24000, a) :: ?l)) with (synth_calls l).
      rewrite synth_calls_app.
      replace (synth_calls (if first then [EvYield silence] else [])) with
        (@nil (bool * pystr * tensor * number)) by (destruct first; reflexivity).
      cbn [app concat]. rewrite Hcalls, <- app_assoc. reflexivity.
    + constructor; [|exact Hall]. exists r, more. auto.
Qed.

(** C7.  When the voice resolves to the pack [pk]:
    - every call of a backend made by [generate_first] or
      [generate_all] is for the phonemes [ps] of a segment of the
      segmenter's sequence, at the requested speed, and with the
      reference vector [pk[len(ps) - 1]]: the item of the pack at
      position [len(ps) - 1], which Python reads as the last item when
      [ps] is empty;
    - and the calls are made: for the first segment, [generate_first]
      calls the backend of the effective flag with that segment's
      phonemes and [pk[len(ps) - 1]] (any further call being the
      standard backend with the same arguments); every turn of the loop
      of [generate_all] starts with that call for its segment; and over
      segments that are all synthesised, the backend calls of
      [generate_all] are exactly these calls, segment after segment,
      followed by those of the rest of the sequence. *)
Theorem reference_vector_by_length G text voice speed use_gpu p pk :
  resolves G voice p pk ->
  (forall gpu ps ref_s speed',
     In (EvSynth gpu ps ref_s speed')
        (log (generate_first G text voice speed use_gpu))
     \/ In (EvSynth gpu ps ref_s speed')
           (log (generate_all G text voice speed use_gpu)) ->
     getitem pk (len ps - 1) = Ok ref_s
     /\ (ps <> [] -> pk !! (length ps - 1)%nat = Some ref_s)
     /\ (ps = [] -> last pk = Some ref_s)
     /\ speed' = speed
     /\ exists seg,
          gen_In seg (call p (normalized G text) voice (Some speed))
          /\ phonemes seg = ps)
  /\ (forall g ps o rest ref_s,
        call p (normalized G text) voice (Some speed) = Yields (g, ps, o) rest ->
        getitem pk (len ps - 1) = Ok ref_s ->
        is_Some (models G !! (use_gpu && CUDA_AVAILABLE G)) ->
        exists more,
          synth_calls (log (generate_first G text voice speed use_gpu))
          = (use_gpu && CUDA_AVAILABLE G, ps, ref_s, speed) :: more
          /\ Forall (fun c => c = (false, ps, ref_s, speed)) more)
  /\ (forall first g ps o rest ref_s,
        getitem pk (len ps - 1) = Ok ref_s ->
        is_Some (models G !! (use_gpu && CUDA_AVAILABLE G)) ->
        exists more,
          synth_calls (log (generate_all_loop G pk speed
                              (use_gpu && CUDA_AVAILABLE G) first
                              (Yields (g, ps, o) rest)))
          = (use_gpu && CUDA_AVAILABLE G, ps, ref_s, speed) :: more)
  /\ (forall segs audios tail,
        call p (normalized G text) voice (Some speed) = gen_app segs tail ->
        Forall2 (fun seg a =>
                   segment_outcome G pk speed (use_gpu && CUDA_AVAILABLE G) seg
                   = Ok a)
                segs audios ->
        exists callss,
          synth_calls (log (generate_all G text voice speed use_gpu))
          = concat callss
            ++ synth_calls (log (generate_all_loop G pk speed
                                   (use_gpu && CUDA_AVAILABLE G)
                                   (is_nil segs) tail))
          /\ Forall2 (fun seg calls =>
                        exists ref_s more,
                          getitem pk (len (phonemes seg) - 1) = Ok ref_s
                          /\ calls = (use_gpu && CUDA_AVAILABLE G,
                                      phonemes seg, ref_s, speed) :: more
                          /\ Forall (fun c =>
                                       c = (false, phonemes seg, ref_s, speed))
                                    more)
                     segs callss).
Proof.
  intros Hres. split; [|split; [|split]].
  - intros gpu ps ref_s speed'.
    apply (synth_events_use_pack_item _ _ _ _ _ _ _ _ _ _ _ Hres).
  - intros g ps o rest ref_s Hcall Href Hm.
    rewrite (generate_first_resolved _ _ _ _ _ _ _ Hres), Hcall, first_turn_Yields.
    cbn zeta. cbn [log]. rewrite synth_calls_app.
    apply (segment_step_first_call G pk info_first speed _ ps ref_s Href Hm).
  - intros first g ps o rest ref_s Href Hm.
    destruct (segment_step_first_call G pk info_all speed _ ps ref_s Href Hm)
      as (more & Hstep & _).
    destruct (segment_outcome G pk speed (use_gpu && CUDA_AVAILABLE G) (g, ps, o))
      as [a|e] eqn:E.
    + rewrite (generate_all_loop_ok _ _ _ _ _ _ _ _ E). cbn [log].
      rewrite synth_calls_app. unfold phonemes. cbn [fst snd]. rewrite Hstep.
      eexists. reflexivity.
    + rewrite (generate_all_loop_raised _ _ _ _ _ _ _ _ E). cbn [log].
      unfold phonemes. cbn [fst snd]. rewrite Hstep. eexists. reflexivity.
  - intros segs audios tail Hcall Hok.
    rewrite (generate_all_resolved _ _ _ _ _ _ _ Hres), Hcall.
    cbn zeta. cbn [log]. rewrite synth_calls_app.
    apply (generate_all_loop_prefix_calls _ _ _ _ _ _ Hok true tail).
Qed.

Lemma reference_vector_by_length_witness :
  (exists more,
     synth_calls (log (generate_first (Stub.G Stub.quota Stub.echo None)
                         (py "hello") Stub.voice Stub.speed true))
     = (true, py "ab", [2%N], Stub.speed) :: more
     /\ Forall (fun c => c = (false, py "ab", [2%N], Stub.speed)) more)
  /\ getitem Stub.pk3 (len (py "def") - 1) = Ok [3%N]
  /\ Stub.pk3 !! 2%nat = Some [3%N].
Proof.
  destruct (reference_vector_by_length (Stub.G Stub.quota Stub.echo None)
              (py "hello") Stub.voice Stub.speed true
              (Stub.pipeline Stub.pk3 Stub.segs3) Stub.pk3)
    as (Hall & Hfirst & _).
  - exists 97%N. repeat split; vm_compute; reflexivity.
  - split.
    + apply (Hfirst (py "ab") (py "ab") None
               (gen_of_list [Stub.seg "c"; Stub.seg "def"]) [2%N]).
      * reflexivity.
      * vm_compute. reflexivity.
      * eexists. vm_compute. reflexivity.
    + destruct (Hall false (py "def") [3%N] Stub.speed) as (Hg & Hn & _).
      * right. vm_compute. tauto.
      * split; [exact Hg|]. apply Hn. discriminate.
Defined.

(** ** Which backend a run may use *)

Lemma loop_event_run pk speed use_gpu segments l :
  Forall (loop_event pk speed use_gpu segments) l -> Forall (run_event use_gpu) l.
Proof.
  intros H. eapply Forall_impl; [exact H|]. intros ev Hev.
  destruct ev; cbn in *; auto;
    destruct Hev as (s & r & _ & _ & Hev); cbn in Hev; try tauto.
Qed.

(** The voice resolves, or the run stops before the segmenter is called. *)
Lemma resolves_or_not G voice :
  (exists p pk, resolves G voice p pk)
  \/ (forall text speed use_gpu,
        (exists l e, generate_first G text voice speed use_gpu = Run l (Raised e)
                     /\ (l = [] \/ l = [EvLoadVoice voice]))
        /\ (exists l e, generate_all G text voice speed use_gpu = Run l (Raised e)
                        /\ (l = [] \/ l = [EvLoadVoice voice]))).
Proof.
  destruct (getitem voice 0) as [c|e] eqn:Hc.
  - destruct (pipelines G !! c) as [p|] eqn:Hp.
    + destruct (load_voice p voice) as [pk|e] eqn:Hl.
      * left. exists p, pk, c. auto.
      * right. intros text speed use_gpu.
        unfold generate_first, generate_all, pipelines_getitem, call_load_voice.
        unfold_monad. rewrite Hc. cbn. rewrite Hp. cbn. rewrite Hl. cbn.
        split; exists [EvLoadVoice voice], e; auto.
    + right. intros text speed use_gpu.
      unfold generate_first, generate_all, pipelines_getitem.
      unfold_monad. rewrite Hc. cbn. rewrite Hp. cbn.
      split; exists [], (KeyError (KeyChar c)); auto.
  - right. intros text speed use_gpu.
    unfold generate_first, generate_all. unfold_monad. rewrite Hc. cbn.
    split; exists [], e; auto.
Qed.

Lemma generate_first_run_events G text voice speed use_gpu :
  Forall (run_event (use_gpu && CUDA_AVAILABLE G))
         (log (generate_first G text voice speed use_gpu)).
Proof.
  destruct (resolves_or_not G voice) as [(p & pk & Hres)|H].
  - rewrite (generate_first_resolved _ _ _ _ _ _ _ Hres). cbn zeta. cbn [log].
    repeat (constructor; [exact I|]).
    eapply loop_event_run, first_turn_events.
  - destruct (H text speed use_gpu) as [(l & e & -> & [-> | ->]) _];
      repeat constructor.
Qed.

Lemma generate_all_run_events G text voice speed use_gpu :
  Forall (run_event (use_gpu && CUDA_AVAILABLE G))
         (log (generate_all G text voice speed use_gpu)).
Proof.
  destruct (resolves_or_not G voice) as [(p & pk & Hres)|H].
  - rewrite (generate_all_resolved _ _ _ _ _ _ _ Hres). cbn zeta. cbn [log].
    repeat (constructor; [exact I|]).
    eapply loop_event_run, generate_all_loop_events.
  - destruct (H text speed use_gpu) as [_ (l & e & -> & [-> | ->])];
      repeat constructor.
Qed.

(** With the flag off, only the standard backend is called and the user
    is not notified. *)
Lemma run_event_off l :
  Forall (run_event false) l ->
  Forall (fun c => fst (fst (fst c)) = false) (synth_calls l)
  /\ notifications l = [].
Proof.
  induction 1 as [|ev l Hev _ [IH1 IH2]]; [split; [constructor|reflexivity]|].
  destruct ev; cbn in *; try discriminate; auto.
  split; [|exact IH2]. constructor; [|exact IH1].
  cbn. destruct gpu; [discriminate (Hev eq_refl)|reflexivity].
Qed.

Lemma predict_log_out G text voice speed :
  log (predict G text voice speed) = log (generate_first G text voice speed false)
  /\ out (predict G text voice speed)
     = match out (generate_first G text voice speed false) with
       | Ok r => Ok (fst r)
       | Raised e => Raised e
       end.
Proof.
  unfold predict. unfold_monad.
  destruct (out (generate_first G text voice speed false));
    cbn; rewrite ?app_nil_r; auto.
Qed.

(** C8.  [predict] makes the calls of [generate_first] with
    acceleration off and returns the chunk of its result, without the
    phonemes; it only ever calls the standard backend, notifies nothing,
    and is the same in every configuration with the same character
    limit, pipelines and standard model, whatever the capability flag
    and the accelerated model are. *)
Theorem predict_is_standard_first_chunk G text voice speed :
  log (predict G text voice speed) = log (generate_first G text voice speed false)
  /\ out (predict G text voice speed)
     = match out (generate_first G text voice speed false) with
       | Ok (chunk, _) => Ok chunk
       | Raised e => Raised e
       end
  /\ Forall (fun c => fst (fst (fst c)) = false)
            (synth_calls (log (predict G text voice speed)))
  /\ notifications (log (predict G text voice speed)) = []
  /\ (forall G',
        CHAR_LIMIT G' = CHAR_LIMIT G ->
        pipelines G' = pipelines G ->
        models G' !! false = models G !! false ->
        predict G' text voice speed = predict G text voice speed).
Proof.
  destruct (predict_log_out G text voice speed) as [Hlog Hout].
  rewrite Hlog, Hout.
  pose proof (generate_first_run_events G text voice speed false) as Hev.
  cbn [andb] in Hev. apply run_event_off in Hev. destruct Hev as [Hs Hn].
  repeat split; auto.
  - destruct (out (generate_first G text voice speed false)) as [[c ps]|e];
      reflexivity.
  - intros G' Hlim Hpipe Hmod.
    unfold predict, generate_first, pipelines_getitem, models_getitem.
    cbn [andb]. rewrite Hlim, Hpipe, Hmod. reflexivity.
Qed.

Lemma predict_is_standard_first_chunk_witness :
  predict (Stub.G Stub.quota Stub.echo None) (py "hello") Stub.voice Stub.speed
  = predict (Stub.G_cpu Stub.echo None) (py "hello") Stub.voice Stub.speed
  /\ out (predict (Stub.G Stub.quota Stub.echo None) (py "hello")
            Stub.voice Stub.speed)
     = Ok (Some (24000, 2%N :: py "ab")).
Proof.
  split.
  - refine (proj2 (proj2 (proj2 (proj2 (predict_is_standard_first_chunk
              (Stub.G_cpu Stub.echo None) (py "hello") Stub.voice Stub.speed))))
              (Stub.G Stub.quota Stub.echo None) _ _ _).
    + reflexivity.
    + reflexivity.
    + vm_compute. reflexivity.
  - vm_compute. reflexivity.
Defined.

(** C9.  In the module as it is written ([CUDA_AVAILABLE = False],
    [models] built over [[False]]), whatever [use_gpu] is:
    the effective flag is off, and [generate_first] and [generate_all]
    run exactly as with [use_gpu = False]; every backend call they make
    is to the standard model; no warning and no notice is issued, so
    neither the accelerated branch nor the fall-back branch of the
    handler is taken; and [forward_gpu], were it called, would raise
    [KeyError(True)] without calling any model. *)
Theorem module_never_accelerates SPACE_ID kmodel pipeline_a pipeline_b
    text voice speed use_gpu :
  let G := module_globals SPACE_ID kmodel pipeline_a pipeline_b in
  CUDA_AVAILABLE G = false
  /\ models G !! false = Some kmodel
  /\ models G !! true = None
  /\ use_gpu && CUDA_AVAILABLE G = false
  /\ generate_first G text voice speed use_gpu
     = generate_first G text voice speed false
  /\ generate_all G text voice speed use_gpu
     = generate_all G text voice speed false
  /\ Forall (fun c => fst (fst (fst c)) = false)
            (synth_calls (log (generate_first G text voice speed use_gpu)))
  /\ Forall (fun c => fst (fst (fst c)) = false)
            (synth_calls (log (generate_all G text voice speed use_gpu)))
  /\ notifications (log (generate_first G text voice speed use_gpu)) = []
  /\ notifications (log (generate_all G text voice speed use_gpu)) = []
  /\ (forall ps ref_s speed',
        forward_gpu G ps ref_s speed' = Run [] (Raised (KeyError (KeyBool true)))).
Proof.
  intros G.
  assert (Hoff : use_gpu && CUDA_AVAILABLE G = false) by apply andb_false_r.
  pose proof (generate_first_run_events G text voice speed use_gpu) as Hf.
  pose proof (generate_all_run_events G text voice speed use_gpu) as Ha.
  rewrite Hoff in Hf, Ha.
  apply run_event_off in Hf, Ha.
  destruct Hf as [Hf1 Hf2], Ha as [Ha1 Ha2].
  repeat split; auto.
  - unfold generate_first. cbn [CUDA_AVAILABLE G module_globals].
    subst G. cbn [CUDA_AVAILABLE module_globals].
    rewrite andb_false_r. reflexivity.
  - unfold generate_all. subst G. cbn [CUDA_AVAILABLE module_globals].
    rewrite andb_false_r. reflexivity.
Qed.

(** ** [tokenize_first] *)

(** C10.  When the first character of the voice names a pipeline,
    [tokenize_first] calls that pipeline once, on the text exactly as
    given and without a speed, calls nothing else, and returns the
    phonemes of the first segment, or the empty string when there is no
    segment; the character limit plays no part. *)
Theorem tokenize_first_raw_text G text voice c p :
  getitem voice 0 = Ok c ->
  pipelines G !! c = Some p ->
  tokenize_first G text voice
  = Run [EvPipeline text voice None]
        (match call p text voice None with
         | Yields (_, ps, _) _ => Ok ps
         | Raises e => Raised e
         | StopIteration => Ok []
         end)
  /\ (forall G',
        pipelines G' = pipelines G ->
        tokenize_first G' text voice = tokenize_first G text voice).
Proof.
  intros Hc Hp. split.
  - unfold tokenize_first, pipelines_getitem, call_pipeline. unfold_monad.
    rewrite Hc. cbn. rewrite Hp. cbn.
    destruct (call p text voice None) as [|e|[[g ps] o] rest]; reflexivity.
  - intros G' Hpipe. unfold tokenize_first, pipelines_getitem.
    rewrite Hpipe. reflexivity.
Qed.

Lemma tokenize_first_raw_text_witness :
  tokenize_first (Stub.G Stub.echo Stub.echo (Some 3%N)) (py "  hello ") Stub.voice
  = Run [EvPipeline (py "  hello ") Stub.voice None] (Ok (py "ab"))
  /\ pipeline_calls
       (log (generate_first (Stub.G Stub.echo Stub.echo (Some 3%N))
               (py "  hello ") Stub.voice Stub.speed true))
     = [(py "hel", Stub.voice, Some Stub.speed)].
Proof.
  split.
  - refine (proj1 (tokenize_first_raw_text
                     (Stub.G Stub.echo Stub.echo (Some 3%N)) (py "  hello ")
                     Stub.voice 97%N (Stub.pipeline Stub.pk3 Stub.segs3) _ _));
      vm_compute; reflexivity.
  - vm_compute. reflexivity.
Defined.

(** * Beyond the claims: edges, bounds and the rest of the module *)

(** ** A voice that does not resolve *)

Lemma getitem_0_cons {A} (c : A) (rest : list A) : getitem (c :: rest) 0 = Ok c.
Proof.
  unfold getitem, len. cbn [length].
  change (0 <? 0) with false. cbv beta iota zeta.
  destruct (Z.ltb_spec 0 (Z.of_nat (S (length rest)))) as [_|H]; [reflexivity|lia].
Qed.

(** The voice resolves, or both audio functions stop in the same way
    before the segmenter is called. *)
Lemma unresolved_runs G voice :
  (exists p pk, resolves G voice p pk)
  \/ (exists l e,
        (l = [] \/ l = [EvLoadVoice voice])
        /\ forall text speed use_gpu,
             generate_first G text voice speed use_gpu = Run l (Raised e)
             /\ generate_all G text voice speed use_gpu = Run l (Raised e)).
Proof.
  destruct (getitem voice 0) as [c|e] eqn:Hc.
  - destruct (pipelines G !! c) as [p|] eqn:Hp.
    + destruct (load_voice p voice) as [pk|e] eqn:Hl.
      * left. exists p, pk, c. auto.
      * right. exists [EvLoadVoice voice], e. split; [auto|].
        intros text speed use_gpu.
        unfold generate_first, generate_all, pipelines_getitem, call_load_voice.
        unfold_monad. rewrite Hc. cbn. rewrite Hp. cbn. rewrite Hl. cbn. auto.
    + right. exists [], (KeyError (KeyChar c)). split; [auto|].
      intros text speed use_gpu.
      unfold generate_first, generate_all, pipelines_getitem.
      unfold_monad. rewrite Hc. cbn. rewrite Hp. cbn. auto.
  - right. exists [], e. split; [auto|].
    intros text speed use_gpu.
    unfold generate_first, generate_all. unfold_monad. rewrite Hc. cbn. auto.
Qed.

(** X1.  An empty voice makes [generate_first], [generate_all], [predict]
    and [tokenize_first] raise [IndexError], and a voice whose first
    character is not a key of [pipelines] makes them raise [KeyError] of
    that character; in both cases nothing has been loaded, segmented or
    synthesised, and nothing is yielded. *)
Theorem bad_voice_stops_before_any_call G text speed use_gpu :
  generate_first G text [] speed use_gpu = Run [] (Raised IndexError)
  /\ generate_all G text [] speed use_gpu = Run [] (Raised IndexError)
  /\ predict G text [] speed = Run [] (Raised IndexError)
  /\ tokenize_first G text [] = Run [] (Raised IndexError)
  /\ forall c rest,
       pipelines G !! c = None ->
       generate_first G text (c :: rest) speed use_gpu
       = Run [] (Raised (KeyError (KeyChar c)))
       /\ generate_all G text (c :: rest) speed use_gpu
          = Run [] (Raised (KeyError (KeyChar c)))
       /\ predict G text (c :: rest) speed
          = Run [] (Raised (KeyError (KeyChar c)))
       /\ tokenize_first G text (c :: rest)
          = Run [] (Raised (KeyError (KeyChar c))).
Proof.
  repeat split; try reflexivity.
  all: unfold predict, generate_first, generate_all, tokenize_first,
         pipelines_getitem; unfold_monad;
       rewrite getitem_0_cons; cbn; rewrite H; reflexivity.
Qed.

Lemma bad_voice_stops_before_any_call_witness :
  generate_all (Stub.G Stub.echo Stub.echo None) (py "hello") (py "zf_x")
    Stub.speed true
  = Run [] (Raised (KeyError (KeyChar 122%N))).
Proof.
  refine (proj1 (proj2 (proj2 (proj2 (proj2 (proj2
            (bad_voice_stops_before_any_call
               (Stub.G Stub.echo Stub.echo None) (py "hello") Stub.speed true))))
            122%N (py "f_x") _))).
  vm_compute. reflexivity.
Defined.

(** X2.  When the pipeline of the voice cannot load it, [generate_first]
    and [generate_all] raise the loader's exception right after the load
    attempt: the segmenter is not called and nothing is synthesised or
    yielded.  [tokenize_first] never loads the voice, so it still
    tokenizes. *)
Theorem voice_load_failure G text voice speed use_gpu c p e :
  getitem voice 0 = Ok c ->
  pipelines G !! c = Some p ->
  load_voice p voice = Raised e ->
  generate_first G text voice speed use_gpu = Run [EvLoadVoice voice] (Raised e)
  /\ generate_all G text voice speed use_gpu = Run [EvLoadVoice voice] (Raised e)
  /\ log (tokenize_first G text voice) = [EvPipeline text voice None]
  /\ (forall g ps o rest,
        call p text voice None = Yields (g, ps, o) rest ->
        out (tokenize_first G text voice) = Ok ps).
Proof.
  intros Hc Hp Hl.
  unfold generate_first, generate_all, tokenize_first, pipelines_getitem,
    call_load_voice, call_pipeline.
  unfold_monad. rewrite Hc. cbn. rewrite Hp. cbn. rewrite Hl. cbn.
  repeat split.
  - destruct (call p text voice None) as [|e'|[[g ps] o] rest]; reflexivity.
  - intros g ps o rest ->. reflexivity.
Qed.

Lemma voice_load_failure_witness :
  generate_all
    {| CUDA_AVAILABLE := false; CHAR_LIMIT := None;
       models := {[ false := Stub.echo ]};
       pipelines := {[ 97%N := Stub.voiceless_pipeline ]} |}
    (py "hello") Stub.voice Stub.speed false
  = Run [EvLoadVoice Stub.voice]
        (Raised (OtherError (py "FileNotFoundError") (py "voice"))).
Proof.
  refine (proj1 (proj2 (voice_load_failure _ (py "hello") Stub.voice Stub.speed
                          false 97%N Stub.voiceless_pipeline _ _ _ _)));
    vm_compute; reflexivity.
Defined.

(** ** Failures that are not generation errors *)

Lemma block_events_no_yield ps ref_s speed use_gpu l :
  Forall (block_event ps ref_s speed use_gpu) l -> yields l = [].
Proof.
  induction 1 as [|ev l Hev _ IH]; [reflexivity|].
  destruct ev; cbn in Hev; try contradiction; exact IH.
Qed.

Lemma synthesize_uncaught G info ps ref_s speed e :
  backend G true ps ref_s speed = Raised e ->
  is_gr_error e = false ->
  out (synthesize G info true ps ref_s speed) = Raised e
  /\ notifications (log (synthesize G info true ps ref_s speed)) = []
  /\ Forall (fun c => fst (fst (fst c)) = true)
            (synth_calls (log (synthesize G info true ps ref_s speed))).
Proof.
  unfold_block. cbn.
  destruct (models G !! true) as [mg|]; cbn.
  - intros -> ->. cbn. repeat constructor.
  - intros [= <-] _. cbn. repeat constructor.
Qed.

(** X3.  With acceleration in effect, an exception of the accelerated
    path that is not a [gr.exceptions.Error] (the model raising something
    else, or [models] having no entry for [True]) is not handled: it
    reaches the caller as it is, nothing is notified, and the standard
    backend is never called for the segment. *)
Theorem other_errors_are_not_retried G pk speed g ps o ref_s e :
  CUDA_AVAILABLE G = true ->
  getitem pk (len ps - 1) = Ok ref_s ->
  backend G true ps ref_s speed = Raised e ->
  is_gr_error e = false ->
  (forall text voice p rest,
     resolves G voice p pk ->
     call p (normalized G text) voice (Some speed) = Yields (g, ps, o) rest ->
     out (generate_first G text voice speed true) = Raised e
     /\ notifications (log (generate_first G text voice speed true)) = []
     /\ Forall (fun c => fst (fst (fst c)) = true)
               (synth_calls (log (generate_first G text voice speed true))))
  /\ (forall first rest,
        out (generate_all_loop G pk speed true first (Yields (g, ps, o) rest))
        = Raised e
        /\ yields (log (generate_all_loop G pk speed true first
                          (Yields (g, ps, o) rest))) = []
        /\ notifications (log (generate_all_loop G pk speed true first
                                 (Yields (g, ps, o) rest))) = []
        /\ Forall (fun c => fst (fst (fst c)) = true)
                  (synth_calls (log (generate_all_loop G pk speed true first
                                       (Yields (g, ps, o) rest))))).
Proof.
  intros Hcuda Href Hb He.
  destruct (synthesize_uncaught G info_first ps ref_s speed e Hb He)
    as (Ho1 & Hn1 & Hs1).
  destruct (synthesize_uncaught G info_all ps ref_s speed e Hb He)
    as (Ho2 & Hn2 & Hs2).
  split.
  - intros text voice p rest Hres Hcall.
    rewrite (generate_first_resolved _ _ _ _ _ _ _ Hres), Hcall, Hcuda,
            first_turn_Yields.
    cbn [andb]. unfold segment_step. unfold_monad.
    rewrite Href. cbn [out log app]. rewrite Ho1. cbn [out log app].
    repeat split; assumption.
  - intros first rest.
    rewrite generate_all_loop_Yields. unfold_monad.
    rewrite Href. cbn [out log app]. rewrite Ho2. cbn [out log app].
    repeat split; try assumption.
    exact (block_events_no_yield _ _ _ _ _
             (synthesize_events G info_all ps ref_s speed true)).
Qed.

Lemma other_errors_are_not_retried_witness :
  out (generate_first (Stub.G Stub.broken Stub.echo None) (py "hello")
         Stub.voice Stub.speed true)
  = Raised (OtherError (py "RuntimeError") (py "CUDA"))
  /\ synth_calls (log (generate_first (Stub.G Stub.broken Stub.echo None)
                         (py "hello") Stub.voice Stub.speed true))
     = [(true, py "ab", [2%N], Stub.speed)].
Proof.
  split; [|vm_compute; reflexivity].
  refine (proj1 (proj1 (other_errors_are_not_retried
            (Stub.G Stub.broken Stub.echo None) Stub.pk3 Stub.speed
            (py "ab") (py "ab") None [2%N]
            (OtherError (py "RuntimeError") (py "CUDA")) _ _ _ _)
          (py "hello") Stub.voice (Stub.pipeline Stub.pk3 Stub.segs3)
          (gen_of_list [Stub.seg "c"; Stub.seg "def"]) _ _));
    try (vm_compute; reflexivity).
  exists 97%N. repeat split; vm_compute; reflexivity.
Defined.

(** ** A pack that is too short *)

Lemma getitem_too_short {A} (pk : list A) (ps : pystr) :
  (length pk < length ps)%nat \/ pk = [] ->
  getitem pk (len ps - 1) = Raised IndexError.
Proof.
  intros H. unfold getitem, len.
  destruct (Z.ltb_spec (Z.of_nat (length ps) - 1) 0) as [Hneg|Hpos].
  - destruct H as [H| ->]; [lia|]. cbn [length].
    destruct (Z.leb_spec 0 (Z.of_nat (length ps) - 1 + Z.of_nat 0)); [lia|].
    reflexivity.
  - assert (Hlt : (length pk < length ps)%nat).
    { destruct H as [H| ->]; [exact H|]. cbn. lia. }
    destruct (Z.ltb_spec (Z.of_nat (length ps) - 1) (Z.of_nat (length pk)));
      [lia|].
    rewrite andb_false_r. reflexivity.
Qed.

(** X4.  When the phonemes of a segment are longer than the voice pack
    (or the pack is empty), the look-up [pack[len(ps)-1]] raises
    [IndexError]: [generate_first] raises it without calling a backend,
    and the streaming loop stops at that segment, without calling a
    backend for it and without yielding anything for it or after it. *)
Theorem pack_too_short_raises G pk speed g ps o :
  (length pk < length ps)%nat \/ pk = [] ->
  (forall text voice p rest use_gpu,
     resolves G voice p pk ->
     call p (normalized G text) voice (Some speed) = Yields (g, ps, o) rest ->
     generate_first G text voice speed use_gpu
     = Run [EvLoadVoice voice; EvPipeline (normalized G text) voice (Some speed)]
           (Raised IndexError))
  /\ (forall use_gpu first rest,
        generate_all_loop G pk speed use_gpu first (Yields (g, ps, o) rest)
        = Run [] (Raised IndexError)).
Proof.
  intros Hshort. pose proof (getitem_too_short pk ps Hshort) as Hget.
  split.
  - intros text voice p rest use_gpu Hres Hcall.
    rewrite (generate_first_resolved _ _ _ _ _ _ _ Hres), Hcall, first_turn_Yields.
    unfold segment_step. unfold_monad. rewrite Hget. reflexivity.
  - intros use_gpu first rest.
    rewrite generate_all_loop_Yields. unfold_monad. rewrite Hget. reflexivity.
Qed.

Lemma pack_too_short_raises_witness :
  generate_first
    {| CUDA_AVAILABLE := false; CHAR_LIMIT := None;
       models := {[ false := Stub.echo ]};
       pipelines := {[ 97%N := Stub.pipeline [[1%N]] Stub.segs3 ]} |}
    (py "hello") Stub.voice Stub.speed false
  = Run [EvLoadVoice Stub.voice; EvPipeline (py "hello") Stub.voice (Some Stub.speed)]
        (Raised IndexError).
Proof.
  refine (proj1 (pack_too_short_raises _ [[1%N]] Stub.speed (py "ab") (py "ab")
                   None _)
            (py "hello") Stub.voice (Stub.pipeline [[1%N]] Stub.segs3)
            (gen_of_list [Stub.seg "c"; Stub.seg "def"]) false _ _).
  - left. vm_compute. lia.
  - exists 97%N. repeat split; vm_compute; reflexivity.
  - vm_compute. reflexivity.
Defined.

(** ** A segmenter that raises *)

(** X5.  When the segmenter raises [e] after the segments [pre], which
    are all synthesised, [generate_all] yields the chunks of [pre]
    (silence marker included) and then raises [e]; when it raises before
    its first segment, [generate_first] raises [e] too, and neither
    function has called a backend. *)
Theorem segmenter_failure_propagates G text voice speed use_gpu p pk pre audios e :
  resolves G voice p pk ->
  call p (normalized G text) voice (Some speed) = gen_app pre (Raises e) ->
  Forall2 (fun s a =>
             segment_outcome G pk speed (use_gpu && CUDA_AVAILABLE G) s = Ok a)
          pre audios ->
  out (generate_all G text voice speed use_gpu) = Raised e
  /\ yields (log (generate_all G text voice speed use_gpu)) = stream audios
  /\ (pre = [] ->
      generate_first G text voice speed use_gpu
      = Run [EvLoadVoice voice; EvPipeline (normalized G text) voice (Some speed)]
            (Raised e)
      /\ generate_all G text voice speed use_gpu
         = Run [EvLoadVoice voice; EvPipeline (normalized G text) voice (Some speed)]
               (Raised e)).
Proof.
  intros Hres Hcall Hok.
  rewrite (generate_all_resolved _ _ _ _ _ _ _ Hres),
          (generate_first_resolved _ _ _ _ _ _ _ Hres), Hcall. cbn zeta.
  destruct (generate_all_loop_prefix _ _ _ _ _ _ Hok true (Raises e))
    as (L & HL & HY).
  rewrite HL. cbn [log out generate_all_loop]. unfold chunks in HY.
  repeat split.
  - rewrite !yields_app, HY. cbn. apply app_nil_r.
  - subst pre. reflexivity.
  - subst pre. cbn in HL. inversion HL as [[HL' _]].
    destruct L; [reflexivity|discriminate].
Qed.

Lemma segmenter_failure_propagates_witness :
  out (generate_all
         {| CUDA_AVAILABLE := false; CHAR_LIMIT := None;
            models := {[ false := Stub.echo ]};
            pipelines := {[ 97%N := Stub.raising_pipeline Stub.pk3
                                      [Stub.seg "ab"]
                                      (OtherError (py "ValueError") (py "g2p")) ]} |}
         (py "hello") Stub.voice Stub.speed false)
  = Raised (OtherError (py "ValueError") (py "g2p"))
  /\ yields (log (generate_all
         {| CUDA_AVAILABLE := false; CHAR_LIMIT := None;
            models := {[ false := Stub.echo ]};
            pipelines := {[ 97%N := Stub.raising_pipeline Stub.pk3
                                      [Stub.seg "ab"]
                                      (OtherError (py "ValueError") (py "g2p")) ]} |}
         (py "hello") Stub.voice Stub.speed false))
     = [(24000, 2%N :: py "ab"); (24000, [0%N])].
Proof.
  destruct (segmenter_failure_propagates
              {| CUDA_AVAILABLE := false; CHAR_LIMIT := None;
                 models := {[ false := Stub.echo ]};
                 pipelines := {[ 97%N := Stub.raising_pipeline Stub.pk3
                                           [Stub.seg "ab"]
                                           (OtherError (py "ValueError") (py "g2p")) ]} |}
              (py "hello") Stub.voice Stub.speed false
              (Stub.raising_pipeline Stub.pk3 [Stub.seg "ab"]
                 (OtherError (py "ValueError") (py "g2p")))
              Stub.pk3 [Stub.seg "ab"] [2%N :: py "ab"]
              (OtherError (py "ValueError") (py "g2p")))
    as (Ho & Hy & _).
  - exists 97%N. repeat split; vm_compute; reflexivity.
  - reflexivity.
  - repeat (constructor; [vm_compute; reflexivity|]). constructor.
  - split; [exact Ho|exact Hy].
Defined.

(** ** The shape of every stream *)




(** X7.  [generate_first] and [generate_all] agree on the start of the
    audio: if [generate_first] returns a chunk, the stream starts with
    that chunk followed by the silence marker; if it returns no chunk,
    the stream is empty and ends normally; if it raises, the stream
    raises the same exception before yielding anything. *)
Theorem first_chunk_agrees G text voice speed use_gpu :
  match out (generate_first G text voice speed use_gpu) with
  | Ok (Some c, _) =>
      exists later,
        yields (log (generate_all G text voice speed use_gpu))
        = c :: (24000, [0%N]) :: later
  | Ok (None, _) =>
      yields (log (generate_all G text voice speed use_gpu)) = []
      /\ out (generate_all G text voice speed use_gpu) = Ok tt
  | Raised e =>
      yields (log (generate_all G text voice speed use_gpu)) = []
      /\ out (generate_all G text voice speed use_gpu) = Raised e
  end.
Proof.
  destruct (unresolved_runs G voice) as [(p & pk & Hres)|(l & e & Hl & Hrun)].
  - rewrite (generate_first_resolved _ _ _ _ _ _ _ Hres),
            (generate_all_resolved _ _ _ _ _ _ _ Hres).
    cbn zeta. cbn [log out].
    destruct (call p (normalized G text) voice (Some speed))
      as [|e|[[g ps] o] rest].
    + cbn. auto.
    + cbn. auto.
    + rewrite first_turn_Yields. cbn [out].
      rewrite (segment_step_out _ _ _ _ _ g ps o).
      destruct (segment_outcome G pk speed (use_gpu && CUDA_AVAILABLE G) (g, ps, o))
        as [a|e] eqn:E.
      * rewrite (generate_all_loop_ok _ _ _ _ _ _ _ _ E). cbn [log].
        exists (yields (log (generate_all_loop G pk speed
                               (use_gpu && CUDA_AVAILABLE G) false rest))).
        rewrite !yields_app, (proj1 (segment_step_quiet _ _ _ _ _ _)).
        reflexivity.
      * rewrite (generate_all_loop_raised _ _ _ _ _ _ _ _ E). cbn [log out].
        rewrite !yields_app, (proj1 (segment_step_quiet _ _ _ _ _ _)). auto.
  - destruct (Hrun text speed use_gpu) as [-> ->]. cbn [log out].
    destruct Hl as [-> | ->]; auto.
Qed.

(** ** The size of what the segmenter receives *)

Lemma head_firstn {A} n (l : list A) c :
  head (firstn n l) = Some c -> head l = Some c.
Proof. destruct n, l; cbn; try discriminate; exact id. Qed.

(** X8.  With a character limit, every text that [generate_first] or
    [generate_all] hands to the segmenter has at most [limit] characters
    and does not start with whitespace. *)
Theorem segmenter_text_bounded G text voice speed use_gpu limit :
  CHAR_LIMIT G = Some limit ->
  Forall (fun c => (length (fst (fst c)) <= N.to_nat limit)%nat
                   /\ forall ch, head (fst (fst c)) = Some ch -> isspace ch = false)
         (pipeline_calls (log (generate_first G text voice speed use_gpu)))
  /\ Forall (fun c => (length (fst (fst c)) <= N.to_nat limit)%nat
                      /\ forall ch, head (fst (fst c)) = Some ch -> isspace ch = false)
            (pipeline_calls (log (generate_all G text voice speed use_gpu))).
Proof.
  intros Hlim.
  assert (Hn : (length (normalized G text) <= N.to_nat limit)%nat
               /\ forall ch, head (normalized G text) = Some ch -> isspace ch = false).
  { unfold normalized, slice_to. rewrite Hlim. split.
    - apply List.firstn_le_length.
    - intros ch Hch. apply head_firstn in Hch.
      destruct (strip_spec text) as (_ & _ & _ & _ & _ & Hh & _). auto. }
  destruct (unresolved_runs G voice) as [(p & pk & Hres)|(l & e & Hl & Hrun)].
  - rewrite (generate_first_resolved _ _ _ _ _ _ _ Hres),
            (generate_all_resolved _ _ _ _ _ _ _ Hres).
    cbn zeta. cbn [log]. rewrite !pipeline_calls_app.
    rewrite (loop_event_no_pipeline _ _ _ _ _ (first_turn_events _ _ _ _ _)),
            (loop_event_no_pipeline _ _ _ _ _ (generate_all_loop_events _ _ _ _ _ _)).
    cbn. split; repeat constructor; apply Hn.
  - destruct (Hrun text speed use_gpu) as [-> ->]. cbn [log].
    destruct Hl as [-> | ->]; cbn; split; constructor.
Qed.

Lemma segmenter_text_bounded_witness :
  Forall (fun c => (length (fst (fst c)) <= 3)%nat
                   /\ forall ch, head (fst (fst c)) = Some ch -> isspace ch = false)
         (pipeline_calls
            (log (generate_all (Stub.G Stub.echo Stub.echo (Some 3%N))
                    (py "  ab cd  ") Stub.voice Stub.speed false)))
  /\ pipeline_calls
       (log (generate_all (Stub.G Stub.echo Stub.echo (Some 3%N))
               (py "  ab cd  ") Stub.voice Stub.speed false))
     = [(py "ab ", Stub.voice, Some Stub.speed)].
Proof.
  split; [|vm_compute; reflexivity].
  apply (proj2 (segmenter_text_bounded (Stub.G Stub.echo Stub.echo (Some 3%N))
                  (py "  ab cd  ") Stub.voice Stub.speed false 3%N eq_refl)).
Defined.

(** ** How often the backends are called *)

Lemma synth_calls_app_length l1 l2 :
  length (synth_calls (l1 ++ l2))
  = (length (synth_calls l1) + length (synth_calls l2))%nat.
Proof. unfold synth_calls. now rewrite omap_app, length_app. Qed.

Lemma synth_calls_yield c l : synth_calls (EvYield c :: l) = synth_calls l.
Proof. reflexivity. Qed.

Lemma segment_step_calls_off G pk info speed ps :
  (length (synth_calls (log (segment_step G pk info speed false ps))) <= 1)%nat.
Proof.
  unfold segment_step. unfold_monad.
  destruct (getitem pk (len ps - 1)) as [r|e]; cbn [out log app]; [|cbn; lia].
  destruct (synthesize_calls G info ps r speed false) as [H|[H|[H _]]];
    [| |discriminate]; cbn zeta in H; rewrite H; cbn; lia.
Qed.

Lemma generate_all_loop_calls G pk speed use_gpu segments :
  forall first,
  (length (synth_calls (log (generate_all_loop G pk speed use_gpu first segments)))
   <= (if use_gpu then 2 else 1) * gen_length segments)%nat.
Proof.
  induction segments as [|e|seg rest IH]; intros first; try (cbn; lia).
  assert (Hstep : (length (synth_calls (log (segment_step G pk info_all speed
                     use_gpu (phonemes seg)))) <= if use_gpu then 2 else 1)%nat).
  { destruct use_gpu; [apply segment_step_calls|apply segment_step_calls_off]. }
  cbn [gen_length].
  destruct (segment_outcome G pk speed use_gpu seg) as [a|e] eqn:E.
  - rewrite (generate_all_loop_ok _ _ _ _ _ _ _ _ E). cbn [log].
    rewrite synth_calls_app_length.
    specialize (IH false).
    destruct first; cbn [app]; rewrite !synth_calls_yield;
      destruct use_gpu; lia.
  - rewrite (generate_all_loop_raised _ _ _ _ _ _ _ _ E). cbn [log].
    destruct use_gpu; lia.
Qed.

(** X9.  When the voice resolves, [generate_all] calls a backend at most
    twice per segment of the segmenter's sequence, and at most once per
    segment when acceleration is not in effect; [generate_first] then
    calls it at most once in all. *)
Theorem backend_calls_bounded G text voice speed use_gpu p pk :
  resolves G voice p pk ->
  (length (synth_calls (log (generate_all G text voice speed use_gpu)))
   <= 2 * gen_length (call p (normalized G text) voice (Some speed)))%nat
  /\ (use_gpu && CUDA_AVAILABLE G = false ->
      (length (synth_calls (log (generate_all G text voice speed use_gpu)))
       <= gen_length (call p (normalized G text) voice (Some speed)))%nat
      /\ (length (synth_calls (log (generate_first G text voice speed use_gpu)))
          <= 1)%nat).
Proof.
  intros Hres.
  rewrite (generate_all_resolved _ _ _ _ _ _ _ Hres),
          (generate_first_resolved _ _ _ _ _ _ _ Hres).
  cbn zeta. cbn [log]. rewrite !synth_calls_app_length.
  change (length (synth_calls [EvLoadVoice voice;
            EvPipeline (normalized G text) voice (Some speed)])) with 0%nat.
  cbn [Nat.add].
  pose proof (generate_all_loop_calls G pk speed (use_gpu && CUDA_AVAILABLE G)
                (call p (normalized G text) voice (Some speed)) true) as H.
  split.
  - destruct (use_gpu && CUDA_AVAILABLE G); lia.
  - intros Hoff. rewrite Hoff in *. split; [lia|].
    destruct (call p (normalized G text) voice (Some speed))
      as [|e|[[g ps] o] rest]; try (cbn; lia).
    rewrite first_turn_Yields. cbn [log]. apply segment_step_calls_off.
Qed.

Lemma backend_calls_bounded_witness :
  (length (synth_calls (log (generate_all (Stub.G Stub.quota Stub.echo None)
                              (py "hello") Stub.voice Stub.speed true)))
   <= 2 * 3)%nat
  /\ length (synth_calls (log (generate_all (Stub.G Stub.quota Stub.echo None)
                                 (py "hello") Stub.voice Stub.speed true)))
     = 6%nat.
Proof.
  split; [|vm_compute; reflexivity].
  refine (proj1 (backend_calls_bounded (Stub.G Stub.quota Stub.echo None)
                   (py "hello") Stub.voice Stub.speed true
                   (Stub.pipeline Stub.pk3 Stub.segs3) Stub.pk3 _)).
  exists 97%N. repeat split; vm_compute; reflexivity.
Defined.

(** ** A backend that keeps failing *)

Lemma notifications_app l1 l2 :
  notifications (l1 ++ l2) = notifications l1 ++ notifications l2.
Proof. apply omap_app. Qed.

(** The segment falls back: the accelerated model raises a generation
    error on it and the standard model gives audio. *)
Lemma generate_all_loop_falls_back G pk speed mg mc segs :
  models G !! true = Some mg ->
  models G !! false = Some mc ->
  Forall (fun seg => exists ref_s e a,
            getitem pk (len (phonemes seg) - 1) = Ok ref_s
            /\ forward mg (phonemes seg) ref_s speed = Raised e
            /\ is_gr_error e = true
            /\ forward mc (phonemes seg) ref_s speed = Ok a) segs ->
  forall first,
    synth_calls (log (generate_all_loop G pk speed true first (gen_of_list segs)))
    = flat_map (fallback_calls pk speed) segs
    /\ length (notifications
                 (log (generate_all_loop G pk speed true first (gen_of_list segs))))
       = (2 * length segs)%nat
    /\ out (generate_all_loop G pk speed true first (gen_of_list segs)) = Ok tt.
Proof.
  intros Hg Hc. induction 1 as [|seg segs Hseg _ IH]; intros first.
  - repeat split.
  - destruct Hseg as (r & e & a & Hr & He & Hgr & Ha).
    destruct seg as [[g ps] o]. unfold phonemes in *. cbn [fst snd] in *.
    unfold gen_of_list in *. cbn [gen_app].
    rewrite generate_all_loop_Yields. unfold_monad.
    rewrite Hr. cbn [out log app].
    rewrite (synthesize_fallback _ _ _ _ _ _ _ _ Hg Hc He Hgr), Ha.
    cbn [out log app].
    destruct (IH false) as (IHs & IHn & IHo).
    destruct first; cbn [out log app];
      rewrite IHo; cbn [flat_map length]; unfold fallback_calls at 1;
      unfold phonemes; cbn [fst snd]; rewrite Hr;
      repeat split; cbn; try (f_equal; f_equal; exact IHs);
      try (change (omap _ ?l) with (notifications l); rewrite IHn; lia).
Qed.

(** X10.  The fall-back is not remembered from one segment to the next:
    when the accelerated model raises a generation error on every
    segment and the standard model synthesises each of them,
    [generate_all] still calls the accelerated model first for every
    segment, then the standard one, issues a warning and a notice for
    each segment, and ends normally. *)
Theorem fallback_is_per_segment G text voice speed p pk mg mc segs :
  CUDA_AVAILABLE G = true ->
  models G !! true = Some mg ->
  models G !! false = Some mc ->
  resolves G voice p pk ->
  call p (normalized G text) voice (Some speed) = gen_of_list segs ->
  Forall (fun seg => exists ref_s e a,
            getitem pk (len (phonemes seg) - 1) = Ok ref_s
            /\ forward mg (phonemes seg) ref_s speed = Raised e
            /\ is_gr_error e = true
            /\ forward mc (phonemes seg) ref_s speed = Ok a) segs ->
  synth_calls (log (generate_all G text voice speed true))
  = flat_map (fun seg =>
                match getitem pk (len (phonemes seg) - 1) with
                | Ok ref_s => [(true, phonemes seg, ref_s, speed);
                               (false, phonemes seg, ref_s, speed)]
                | Raised _ => []
                end) segs
  /\ length (notifications (log (generate_all G text voice speed true)))
     = (2 * length segs)%nat
  /\ out (generate_all G text voice speed true) = Ok tt.
Proof.
  intros Hcuda Hg Hc Hres Hcall Hsegs.
  rewrite (generate_all_resolved _ _ _ _ _ _ _ Hres), Hcall, Hcuda.
  cbn zeta. cbn [andb log out].
  destruct (generate_all_loop_falls_back G pk speed mg mc segs Hg Hc Hsegs true)
    as (Hs & Hn & Ho).
  rewrite notifications_app, length_app, Hn, Ho.
  unfold synth_calls in *. rewrite omap_app, Hs.
  repeat split.
Qed.

Lemma fallback_is_per_segment_witness :
  synth_calls (log (generate_all (Stub.G Stub.quota Stub.echo None) (py "hello")
                      Stub.voice Stub.speed true))
  = [(true, py "ab", [2%N], Stub.speed); (false, py "ab", [2%N], Stub.speed);
     (true, py "c", [1%N], Stub.speed); (false, py "c", [1%N], Stub.speed);
     (true, py "def", [3%N], Stub.speed); (false, py "def", [3%N], Stub.speed)].
Proof.
  refine (proj1 (fallback_is_per_segment (Stub.G Stub.quota Stub.echo None)
                   (py "hello") Stub.voice Stub.speed
                   (Stub.pipeline Stub.pk3 Stub.segs3) Stub.pk3
                   Stub.quota Stub.echo Stub.segs3 _ _ _ _ _ _));
    try (vm_compute; reflexivity).
  - exists 97%N. repeat split; vm_compute; reflexivity.
  - repeat (constructor;
            [eexists _, _, _; repeat split; vm_compute; reflexivity|]).
    constructor.
Defined.

(** ** Tokens and audio *)

(** X11.  When the text is not changed by normalization and the
    segmenter gives the same sequence with and without the speed,
    whatever phonemes [generate_first] returns with its audio are the
    ones [tokenize_first] returns for the same text and voice (the empty
    string when there is no segment). *)
Theorem tokens_match_first_audio G text voice speed use_gpu p pk r :
  resolves G voice p pk ->
  normalized G text = text ->
  call p text voice None = call p text voice (Some speed) ->
  out (generate_first G text voice speed use_gpu) = Ok r ->
  out (tokenize_first G text voice) = Ok (snd r).
Proof.
  intros Hres Hnorm Hsame.
  rewrite (generate_first_resolved _ _ _ _ _ _ _ Hres), Hnorm. cbn zeta. cbn [out].
  destruct Hres as (c & Hc & Hp & _).
  unfold tokenize_first, pipelines_getitem, call_pipeline. unfold_monad.
  rewrite Hc. cbn. rewrite Hp. cbn. rewrite Hsame.
  destruct (call p text voice (Some speed)) as [|e|[[g ps] o] rest].
  - cbn. now intros [= <-].
  - cbn. discriminate.
  - rewrite first_turn_Yields. cbn [out].
    destruct (out (segment_step _ _ _ _ _ _)); [|discriminate].
    now intros [= <-].
Qed.

Lemma tokens_match_first_audio_witness :
  out (tokenize_first (Stub.G Stub.quota Stub.echo None) (py "hello") Stub.voice)
  = Ok (py "ab").
Proof.
  refine (tokens_match_first_audio (Stub.G Stub.quota Stub.echo None)
            (py "hello") Stub.voice Stub.speed true
            (Stub.pipeline Stub.pk3 Stub.segs3) Stub.pk3
            (Some (24000, 2%N :: py "ab"), py "ab") _ _ _ _);
    try (vm_compute; reflexivity).
  exists 97%N. repeat split; vm_compute; reflexivity.
Defined.

(** ** Preloading the catalogue *)

Lemma preload_from G voices :
  forall n,
    out (preload G voices n) = Ok (n + length (List.filter (loads G) voices))%nat
    /\ log (preload G voices n)
       = map EvLoadVoice (List.filter (has_pipeline G) voices).
Proof.
  induction voices as [|v later IH]; intros n.
  - cbn. split; [f_equal; lia|reflexivity].
  - cbn [preload List.filter]. unfold loads at 1, has_pipeline at 1.
    unfold try_except, pipelines_getitem, call_load_voice. unfold_monad.
    destruct (getitem v 0) as [c|e]; cbn [out log app].
    + destruct (pipelines G !! c) as [p|]; cbn [out log app].
      * destruct (load_voice p v) as [pk|e]; cbn [out log app];
          [destruct (IH (S n)) as [Ho Hl]|destruct (IH n) as [Ho Hl]];
          rewrite Ho, Hl; cbn; split; try reflexivity; f_equal; lia.
      * destruct (IH n) as [Ho Hl]. rewrite Ho, Hl. cbn. split; reflexivity.
    + destruct (IH n) as [Ho Hl]. rewrite Ho, Hl. cbn. split; reflexivity.
Qed.

Lemma filter_length_le {A} (f : A -> bool) l :
  (length (List.filter f l) <= length l)%nat.
Proof. induction l as [|a l IH]; cbn; [lia|]. destruct (f a); cbn; lia. Qed.

Lemma filter_all {A} (f : A -> bool) l :
  Forall (fun a => f a = true) l -> List.filter f l = l.
Proof. induction 1 as [|a l Ha _ IH]; cbn; [reflexivity|]. now rewrite Ha, IH. Qed.

(** X12.  The preload loop never raises: a voice that cannot be loaded
    (empty name, no pipeline for its first character, or a loader that
    raises) is skipped and the loop goes on.  It ends with the number of
    voices that loaded, and has asked a pipeline to load exactly the
    voices whose first character names one, in the order of the list. *)
Theorem preload_counts_loaded_voices G voices :
  out (preload G voices 0) = Ok (length (List.filter (loads G) voices))
  /\ log (preload G voices 0)
     = map EvLoadVoice (List.filter (has_pipeline G) voices)
  /\ (length (List.filter (loads G) voices) <= length voices)%nat
  /\ (Forall (fun v => loads G v = true) voices ->
      out (preload G voices 0) = Ok (length voices)).
Proof.
  destruct (preload_from G voices 0) as [Ho Hl].
  repeat split; auto.
  - apply filter_length_le.
  - intros Hall. rewrite Ho, (filter_all _ _ Hall). reflexivity.
Qed.

Lemma preload_counts_loaded_voices_witness :
  out (preload (Stub.G Stub.echo Stub.echo None) [py "af_heart"; py "am_adam"] 0)
  = Ok 2%nat
  /\ out (preload (Stub.G Stub.echo Stub.echo None)
            [py "af_heart"; py ""; py "bf_emma"; py "am_adam"] 0)
     = Ok 2%nat.
Proof.
  split; [|vm_compute; reflexivity].
  refine (proj2 (proj2 (proj2 (preload_counts_loaded_voices
            (Stub.G Stub.echo Stub.echo None) [py "af_heart"; py "am_adam"]))) _).
  repeat constructor.
Defined.

(** X13.  In the module as it is written, every voice of the catalogue
    names one of the two pipelines (its first character is ['a'] or
    ['b']), so the preload asks for each of the 28 voices once, in the
    order of the catalogue, and none of them can fail a request with
    [KeyError] or [IndexError] before its pipeline is asked to load it. *)
Theorem catalogue_voices_have_pipelines SPACE_ID kmodel pipeline_a pipeline_b :
  let G := module_globals SPACE_ID kmodel pipeline_a pipeline_b in
  length CHOICES_values = 28%nat
  /\ Forall (fun v =>
               exists c rest,
                 v = c :: rest
                 /\ (c = 97%N /\ pipelines G !! c = Some pipeline_a
                     \/ c = 98%N /\ pipelines G !! c = Some pipeline_b))
            CHOICES_values
  /\ log (preload G CHOICES_values 0) = map EvLoadVoice CHOICES_values
  /\ Forall (fun v =>
               forall text speed use_gpu,
                 EvLoadVoice v ∈ log (generate_first G text v speed use_gpu)
                 /\ EvLoadVoice v ∈ log (generate_all G text v speed use_gpu))
            CHOICES_values.
Proof.
  intros G.
  assert (Hpipe : Forall (fun v => has_pipeline G v = true) CHOICES_values).
  { repeat (constructor; [vm_compute; reflexivity|]). constructor. }
  split; [reflexivity|]. split; [|split].
  - repeat (constructor;
            [eexists _, _; split; [reflexivity|];
             first [left; split; reflexivity | right; split; reflexivity]|]).
    constructor.
  - rewrite (proj2 (preload_from G CHOICES_values 0)), (filter_all _ _ Hpipe).
    reflexivity.
  - eapply Forall_impl; [exact Hpipe|]. intros v Hv text speed use_gpu.
    unfold has_pipeline in Hv.
    destruct (getitem v 0) as [c|] eqn:Hc; [|discriminate].
    destruct (pipelines G !! c) as [p|] eqn:Hp; [|discriminate].
    unfold generate_first, generate_all, pipelines_getitem, call_load_voice.
    unfold_monad. rewrite Hc. cbn [out log app]. rewrite Hp. cbn [out log app].
    destruct (load_voice p v); cbn [out log app]; split; apply list_elem_of_here.
Qed.

(** ** The configuration read from [SPACE_ID] *)

Lemma startswith_spec p : forall s, startswith s p = true <-> exists r, s = p ++ r.
Proof.
  induction p as [|a p IH]; intros s.
  - destruct s; cbn; split; eauto.
  - destruct s as [|b s]; cbn.
    + split; [discriminate|]. intros (r & Hr). discriminate.
    + rewrite andb_true_iff, N.eqb_eq, IH. split.
      * intros (-> & r & ->). eauto.
      * intros (r & [= -> ->]). eauto.
Qed.

(** X14.  The module caps the text at 500000 characters exactly when the
    environment variable [SPACE_ID] is set and begins with ["c:/kuku"];
    otherwise (unset, or any other value) there is no limit.  No other
    limit is ever configured. *)
Theorem char_limit_by_space_id SPACE_ID kmodel pipeline_a pipeline_b :
  let G := module_globals SPACE_ID kmodel pipeline_a pipeline_b in
  (CHAR_LIMIT G = Some 500000%N
   <-> exists rest, SPACE_ID = Some (py "c:/kuku" ++ rest))
  /\ (CHAR_LIMIT G = None
      <-> ~ exists rest, SPACE_ID = Some (py "c:/kuku" ++ rest))
  /\ (forall n, CHAR_LIMIT G = Some n -> n = 500000%N).
Proof.
  intros G. subst G. cbn [CHAR_LIMIT module_globals]. unfold IS_DUPLICATE.
  destruct (startswith (default [] SPACE_ID) (py "c:/kuku")) eqn:E; cbn [negb].
  - apply startswith_spec in E. destruct E as (r & Hr).
    assert (Hs : exists rest, SPACE_ID = Some (py "c:/kuku" ++ rest)).
    { destruct SPACE_ID as [s|]; [exists r; f_equal; exact Hr|].
      vm_compute in Hr. discriminate. }
    repeat split; auto; try discriminate.
    + intros Hn. contradiction.
    + now intros n [= <-].
  - assert (Hs : ~ exists rest, SPACE_ID = Some (py "c:/kuku" ++ rest)).
    { intros (r & ->). unfold default, from_option, id in E.
      assert (startswith (py "c:/kuku" ++ r) (py "c:/kuku") = true)
        by (apply startswith_spec; eauto).
      congruence. }
    repeat split; auto; try discriminate.
    intros Hr. contradiction.
Qed.

(** X15.  The two switches read [SPACE_ID] with different spellings of
    the path: the API is closed only for the value ["c:\kuku\Kokoro-82M"],
    which does not begin with ["c:/kuku"], so a closed API always comes
    with no character limit, and a character limit always comes with an
    open API. *)
Theorem closed_api_has_no_limit SPACE_ID kmodel pipeline_a pipeline_b :
  (API_OPEN SPACE_ID = false ->
   IS_DUPLICATE SPACE_ID = true
   /\ CHAR_LIMIT (module_globals SPACE_ID kmodel pipeline_a pipeline_b) = None
   /\ API_NAME SPACE_ID = Some false)
  /\ (forall n,
        CHAR_LIMIT (module_globals SPACE_ID kmodel pipeline_a pipeline_b) = Some n ->
        API_OPEN SPACE_ID = true /\ API_NAME SPACE_ID = None).
Proof.
  assert (Hclosed : API_OPEN SPACE_ID = false -> IS_DUPLICATE SPACE_ID = true).
  { unfold API_OPEN. intros H. apply negb_false_iff, bool_decide_eq_true in H.
    subst SPACE_ID. vm_compute. reflexivity. }
  split.
  - intros H. pose proof (Hclosed H) as Hd.
    cbn [CHAR_LIMIT module_globals]. unfold API_NAME. rewrite Hd, H. auto.
  - intros n. cbn [CHAR_LIMIT module_globals]. unfold API_NAME.
    destruct (API_OPEN SPACE_ID) eqn:E; [auto|].
    rewrite (Hclosed eq_refl). discriminate.
Qed.

Lemma closed_api_has_no_limit_witness :
  CHAR_LIMIT (module_globals (Some (py "c:\kuku\Kokoro-82M")) Stub.echo
                (Stub.pipeline [] []) (Stub.pipeline [] [])) = None
  /\ API_OPEN (Some (py "c:/kuku/Kokoro-TTS")) = true.
Proof.
  split.
  - refine (proj1 (proj2 (proj1 (closed_api_has_no_limit
              (Some (py "c:\kuku\Kokoro-82M")) Stub.echo
              (Stub.pipeline [] []) (Stub.pipeline [] [])) _))).
    vm_compute. reflexivity.
  - refine (proj1 (proj2 (closed_api_has_no_limit
              (Some (py "c:/kuku/Kokoro-TTS")) Stub.echo
              (Stub.pipeline [] []) (Stub.pipeline [] [])) 500000%N _)).
    vm_compute. reflexivity.
Defined.

(** ** The sample texts *)

Lemma file_lines_from_concat text :
  forall current, concat (file_lines_from current text) = rev current ++ text.
Proof.
  induction text as [|c text IH]; intros current.
  - destruct current; cbn; rewrite ?app_nil_r; reflexivity.
  - cbn [file_lines_from]. destruct (c =? 10)%N.
    + cbn [concat rev]. rewrite IH. cbn. now rewrite <- app_assoc.
    + rewrite IH. cbn. now rewrite <- app_assoc.
Qed.

(** The lines of a file, put end to end, are the file. *)
Lemma file_lines_concat text : concat (file_lines text) = text.
Proof. apply file_lines_from_concat. Qed.

Lemma file_lines_from_nonempty text :
  forall current, current <> [] \/ text <> [] -> file_lines_from current text <> [].
Proof.
  induction text as [|c text IH]; intros current H.
  - destruct current; [destruct H; contradiction|discriminate].
  - cbn. destruct (c =? 10)%N; [discriminate|].
    apply IH. left. discriminate.
Qed.

Lemma random_choice_member {A} draw (l : list A) :
  l <> [] -> exists x, random_choice draw l = Ok x /\ In x l.
Proof.
  intros Hne. unfold random_choice. destruct l as [|a l]; [contradiction|].
  set (seq := a :: l) in *.
  assert (Hlt : (draw mod length seq < length seq)%nat)
    by (apply Nat.mod_upper_bound; discriminate).
  destruct (lookup_lt_is_Some_2 seq _ Hlt) as (x & Hx).
  exists x. split; [|apply list_elem_of_In, list_elem_of_lookup; eauto].
  unfold getitem, len.
  destruct (Z.ltb_spec (Z.of_nat (draw mod length seq)) 0); [lia|].
  destruct (Z.leb_spec 0 (Z.of_nat (draw mod length seq))); [|lia].
  destruct (Z.ltb_spec (Z.of_nat (draw mod length seq)) (Z.of_nat (length seq)));
    [|lia].
  cbn [andb]. rewrite Nat2Z.id, Hx. reflexivity.
Qed.

Lemma lstrip_fixpoint s :
  (forall c, head s = Some c -> isspace c = false) -> lstrip s = s.
Proof.
  destruct s as [|c s]; [reflexivity|]. intros H. cbn.
  now rewrite (H c eq_refl).
Qed.

(** A text that neither starts nor ends with whitespace is left alone. *)
Lemma strip_fixpoint s :
  (forall c, head s = Some c -> isspace c = false) ->
  (forall c, last s = Some c -> isspace c = false) ->
  strip s = s.
Proof.
  intros Hh Hl. unfold strip, rstrip. rewrite (lstrip_fixpoint s Hh).
  rewrite lstrip_fixpoint; [apply rev_involutive|].
  intros c Hc. apply Hl. now rewrite last_rev_head.
Qed.

Lemma strip_idempotent s : strip (strip s) = strip s.
Proof.
  destruct (strip_spec s) as (_ & _ & _ & _ & _ & Hh & Hl).
  now apply strip_fixpoint.
Qed.

(** X16.  [get_random_quote] never raises and always returns a string
    without whitespace at either end: the stripped text of one of the
    lines of the quotes file, or, when the file cannot be read or is
    empty (so that there is nothing to choose from), the text
    ["Error loading quote."]. *)
Theorem random_quote_or_error_text fs draw :
  exists quote,
    get_random_quote fs draw = Run [] (Ok quote)
    /\ strip quote = quote
    /\ match read_text fs en_txt with
       | Raised _ => quote = py "Error loading quote."
       | Ok [] => quote = py "Error loading quote."
       | Ok text =>
           exists line, In line (file_lines text) /\ quote = strip line
       end.
Proof.
  unfold get_random_quote, try_except. unfold_monad.
  destruct (read_text fs en_txt) as [text|e]; cbn [out log app].
  - destruct text as [|c text].
    + exists (py "Error loading quote.").
      split; [reflexivity|split; [vm_compute; reflexivity|reflexivity]].
    + set (t := c :: text).
      assert (Hne : map strip (file_lines t) <> []).
      { intros H. apply map_eq_nil in H.
        apply (file_lines_from_nonempty t []) in H; [exact H|right; discriminate]. }
      destruct (random_choice_member draw _ Hne) as (q & Hq & Hin).
      rewrite Hq. cbn [out log app]. exists q. repeat split.
      * apply in_map_iff in Hin. destruct Hin as (line & <- & _).
        apply strip_idempotent.
      * apply in_map_iff in Hin. destruct Hin as (line & <- & Hl). eauto.
  - exists (py "Error loading quote.").
    split; [reflexivity|split; [vm_compute; reflexivity|reflexivity]].
Qed.

(** X17.  [get_gatsby] and [get_frankenstein] never raise: each returns
    the stripped content of its file, or its own error text when the
    file cannot be read.  What they return has no whitespace at either
    end, so the normalization of [generate_first] and [generate_all]
    only ever truncates it: it is passed unchanged when there is no
    limit or when it is not longer than the limit. *)
Theorem samples_survive_normalization fs G :
  (exists s,
     get_gatsby fs = Run [] (Ok s)
     /\ s = match read_text fs gatsby5k_md with
            | Ok content => strip content
            | Raised _ => py "Error loading Gatsby sample."
            end
     /\ strip s = s
     /\ (forall limit, CHAR_LIMIT G = Some limit ->
         normalized G s = firstn (N.to_nat limit) s)
     /\ ((CHAR_LIMIT G = None
          \/ exists limit, CHAR_LIMIT G = Some limit
                           /\ (length s <= N.to_nat limit)%nat) ->
         normalized G s = s))
  /\ (exists s,
        get_frankenstein fs = Run [] (Ok s)
        /\ s = match read_text fs frankenstein5k_md with
               | Ok content => strip content
               | Raised _ => py "Error loading Frankenstein sample."
               end
        /\ strip s = s
        /\ (forall limit, CHAR_LIMIT G = Some limit ->
            normalized G s = firstn (N.to_nat limit) s)
        /\ ((CHAR_LIMIT G = None
             \/ exists limit, CHAR_LIMIT G = Some limit
                              /\ (length s <= N.to_nat limit)%nat) ->
            normalized G s = s)).
Proof.
  assert (Hnorm : forall s, strip s = s ->
            (forall limit, CHAR_LIMIT G = Some limit ->
               normalized G s = firstn (N.to_nat limit) s)
            /\ ((CHAR_LIMIT G = None
                 \/ exists limit, CHAR_LIMIT G = Some limit
                                  /\ (length s <= N.to_nat limit)%nat) ->
                normalized G s = s)).
  { intros s Hs. unfold normalized, slice_to. split.
    - intros limit ->. now rewrite Hs.
    - intros [-> | (limit & -> & Hlen)]; [reflexivity|].
      rewrite Hs. now apply firstn_all2. }
  unfold get_gatsby, get_frankenstein, try_except. unfold_monad.
  split.
  - destruct (read_text fs gatsby5k_md) as [content|e]; cbn [out log app];
      eexists; split; try reflexivity; split; try reflexivity.
    + split; [apply strip_idempotent|apply Hnorm, strip_idempotent].
    + assert (H : strip (py "Error loading Gatsby sample.")
                  = py "Error loading Gatsby sample.")
        by (vm_compute; reflexivity).
      split; [exact H|apply Hnorm, H].
  - destruct (read_text fs frankenstein5k_md) as [content|e]; cbn [out log app];
      eexists; split; try reflexivity; split; try reflexivity.
    + split; [apply strip_idempotent|apply Hnorm, strip_idempotent].
    + assert (H : strip (py "Error loading Frankenstein sample.")
                  = py "Error loading Frankenstein sample.")
        by (vm_compute; reflexivity).
      split; [exact H|apply Hnorm, H].
Qed.

Lemma samples_survive_normalization_witness :
  get_gatsby (Stub.one_file gatsby5k_md (py " In my younger years  "))
  = Run [] (Ok (py "In my younger years"))
  /\ normalized (Stub.G Stub.echo Stub.echo (Some 500000%N))
       (py "In my younger years")
     = py "In my younger years".
Proof.
  destruct (samples_survive_normalization
              (Stub.one_file gatsby5k_md (py " In my younger years  "))
              (Stub.G Stub.echo Stub.echo (Some 500000%N)))
    as [(s & Hrun & Hs & _ & _ & Hkeep) _].
  assert (Hval : s = py "In my younger years").
  { rewrite Hs. vm_compute. reflexivity. }
  subst s. split; [exact Hrun|].
  apply Hkeep. right. exists 500000%N. split; [reflexivity|].
  apply Nat.leb_le. vm_compute. reflexivity.
Defined.
